(** * China CO2 emissions dashboard: loader, filter engine and aggregator

    Shallow embedding of [Data_Visualization_Project_First_Draft.py].
    The script is a pandas pipeline: [load_data] reads four columns of a
    spreadsheet and cleans them, the sidebar selections narrow the frame
    with [df.query], and a handful of group-by reductions feed the charts.

    A data frame is a list of rows in file order.  The pandas primitives
    the script calls ([unique], [sorted], [col == @v] inside [query],
    [groupby(..).sum()], [nlargest], [sum], [mean], [dropna],
    [to_datetime]) are written out as list functions in module [pd].  A
    call that can raise returns an [Outcome]; what the script prints on the
    page is returned next to its result.  Emission values are [float64] in
    the script; here they live in a carrier [V] with the operations of
    class [Arith], instantiated with IEEE binary64 ([float_arith]) and
    with exact integers ([Z_arith]). *)

From Stdlib Require Import List String Ascii ZArith NArith Bool Lia.
From Stdlib Require Import Permutation Sorted PrimFloat Uint63.
Import ListNotations.
Local Open Scope string_scope.
Local Open Scope Z_scope.

Set Implicit Arguments.

(** ** Numeric carrier of the [Emissions] column *)

Class Arith (V : Type) := {
  vzero : V;
  vadd  : V -> V -> V;
  vdivn : V -> nat -> V;        (* division by a row count, as in [mean] *)
  vleb  : V -> V -> bool
}.

Definition vltb {V} `{Arith V} (a b : V) : bool := negb (vleb b a).

(** Laws of exact arithmetic.  Binary64 addition does not satisfy
    [vadd_assoc]. *)
Class ExactArith (V : Type) `{Arith V} : Prop := {
  vadd_assoc : forall a b c : V, vadd a (vadd b c) = vadd (vadd a b) c;
  vadd_comm  : forall a b : V, vadd a b = vadd b a;
  vadd_0_l   : forall a : V, vadd vzero a = a
}.

#[export] Instance float_arith : Arith float := {
  vzero := PrimFloat.zero;
  vadd  := PrimFloat.add;
  vdivn := fun x n => PrimFloat.div x (PrimFloat.of_uint63 (Uint63.of_Z (Z.of_nat n)));
  vleb  := PrimFloat.leb
}.

#[export] Instance Z_arith : Arith Z := {
  vzero := 0;
  vadd  := Z.add;
  vdivn := fun x n => x / Z.of_nat n;
  vleb  := Z.leb
}.

#[export] Instance Z_exact : ExactArith (V := Z).
Proof. split; intros; cbn; lia. Qed.

(** ** Keys: the values of a column one can compare and sort *)

Class Key (K : Type) := {
  keqb : K -> K -> bool;
  kleb : K -> K -> bool;
  keqb_spec    : forall a b, reflect (a = b) (keqb a b);
  kleb_total   : forall a b, kleb a b = true \/ kleb b a = true;
  kleb_trans   : forall a b c, kleb a b = true -> kleb b c = true -> kleb a c = true;
  kleb_antisym : forall a b, kleb a b = true -> kleb b a = true -> a = b
}.

Definition kltb {K} `{Key K} (a b : K) : bool := negb (kleb b a).

Definition kle {K} `{Key K} (a b : K) : Prop := kleb a b = true.

Lemma ascii_compare_lt_trans (a b c : ascii) :
  Ascii.compare a b = Lt -> Ascii.compare b c = Lt -> Ascii.compare a c = Lt.
Proof.
  unfold Ascii.compare. rewrite !N.compare_lt_iff. apply N.lt_trans.
Qed.

Lemma string_compare_lt_trans :
  forall s1 s2 s3 : string,
    String.compare s1 s2 = Lt -> String.compare s2 s3 = Lt ->
    String.compare s1 s3 = Lt.
Proof.
  induction s1 as [|a s1 IH]; intros [|b s2] [|c s3]; simpl;
    try discriminate; try reflexivity.
  destruct (Ascii.compare a b) eqn:Hab; try discriminate;
    destruct (Ascii.compare b c) eqn:Hbc; try discriminate; intros H12 H23.
  - apply Ascii.compare_eq_iff in Hab, Hbc. subst.
    replace (Ascii.compare c c) with Eq
      by (symmetry; unfold Ascii.compare; apply N.compare_refl).
    eauto.
  - apply Ascii.compare_eq_iff in Hab. subst. now rewrite Hbc.
  - apply Ascii.compare_eq_iff in Hbc. subst. now rewrite Hab.
  - now rewrite (ascii_compare_lt_trans _ _ _ Hab Hbc).
Qed.

Lemma string_leb_trans (s1 s2 s3 : string) :
  String.leb s1 s2 = true -> String.leb s2 s3 = true -> String.leb s1 s3 = true.
Proof.
  unfold String.leb.
  destruct (String.compare s1 s2) eqn:H12; try discriminate;
    destruct (String.compare s2 s3) eqn:H23; try discriminate; intros _ _.
  - apply String.compare_eq_iff in H12. subst s2. now rewrite H23.
  - apply String.compare_eq_iff in H12. subst s2. now rewrite H23.
  - apply String.compare_eq_iff in H23. subst s3. now rewrite H12.
  - now rewrite (string_compare_lt_trans _ _ _ H12 H23).
Qed.

(** Python compares [str] by code point; on the bytes of a UTF-8 string
    that is the byte-wise lexicographic order of [String.leb]. *)
#[export] Instance string_key : Key string := {
  keqb := String.eqb;
  kleb := String.leb;
  keqb_spec := String.eqb_spec;
  kleb_total := String.leb_total;
  kleb_trans := string_leb_trans;
  kleb_antisym := String.leb_antisym
}.

#[export] Instance Z_key : Key Z.
Proof.
  refine {| keqb := Z.eqb; kleb := Z.leb; keqb_spec := Z.eqb_spec |};
    intros; lia.
Defined.

(** ** Exceptions and page output *)

(** What the library calls of the script can raise. *)
Inductive PyExn :=
| FileNotFoundError            (* no file at the path *)
| ImportError                  (* openpyxl is not installed *)
| BadZipFile                   (* the workbook is corrupt *)
| ValueError (msg : string)
| TypeError (msg : string).

Definition str (e : PyExn) : string :=
  match e with
  | FileNotFoundError => "No such file or directory"
  | ImportError => "Missing optional dependency 'openpyxl'"
  | BadZipFile => "File is not a zip file"
  | ValueError msg => msg
  | TypeError msg => msg
  end.

Inductive Outcome (A : Type) :=
| Returned (a : A)
| Raised (e : PyExn).
Arguments Raised {A} e.

(** What [st.error], [st.info] and [st.warning] put on the page. *)
Inductive UIMessage :=
| st_error (text : string)
| st_info (text : string)
| st_warning (text : string).

(** ** The pandas and builtin primitives the script uses *)

Fixpoint zip_with {A B C} (f : A -> B -> C) (l : list A) (l' : list B) : list C :=
  match l, l' with
  | a :: t, b :: t' => f a b :: zip_with f t t'
  | _, _ => []
  end.

Module pd.

(** The right-hand side of [col == @v] in [DataFrame.query]: a Python
    [list] (what a multiselect and [sorted] return) or a NumPy array
    (what [Series.unique()] returns). *)
Inductive Operand (K : Type) :=
| py_list (xs : list K)
| ndarray (xs : list K).

Section KeyOps.
Context {K : Type} `{Key K}.

(** [x in xs], and [col.isin(xs)] row by row. *)
Definition isin (x : K) (xs : list K) : bool := existsb (keqb x) xs.

(** [Series.unique()]: distinct values in order of first appearance. *)
Fixpoint unique (l : list K) : list K :=
  match l with
  | [] => []
  | x :: l' => x :: filter (fun y => negb (keqb x y)) (unique l')
  end.

(** [sorted(xs)]: ascending. *)
Fixpoint insort (x : K) (l : list K) : list K :=
  match l with
  | [] => [x]
  | y :: l' => if kleb x y then x :: l else y :: insort x l'
  end.

Definition sorted (l : list K) : list K := fold_right insort [] l.

(** [col == @v] as [query] evaluates it.  Only when [v] is a [list] is
    the comparison rewritten to a membership test, [col.isin(v)].  An
    array is compared with the column element by element, and
    [Series.__eq__] raises when the two lengths differ. *)
Definition query_eq (col : list K) (v : Operand K) : Outcome (list bool) :=
  match v with
  | py_list xs => Returned (map (fun x => isin x xs) col)
  | ndarray xs =>
      if (List.length col =? List.length xs)%nat
      then Returned (zip_with keqb col xs)
      else Raised (ValueError "Lengths must match to compare")
  end.
End KeyOps.

(** [m1 & m2] on boolean columns. *)
Definition mask_and (m1 m2 : list bool) : list bool := zip_with andb m1 m2.

(** [rows[mask]]: the rows whose mask entry is true, in order. *)
Fixpoint select {R} (mask : list bool) (rows : list R) : list R :=
match mask, rows with
| b :: mask', r :: rows' =>
    if b then r :: select mask' rows' else select mask' rows'
| _, _ => []
end.

Section Reductions.
Context {V : Type} `{Arith V}.

(** [Series.sum()]: the values added up from [0.0], here in row order.
    NumPy adds long columns pairwise; the order matters only to the
    rounding of inexact additions. *)
Definition sum (l : list V) : V := fold_left vadd l vzero.

(** [Series.mean()]: [None] stands for the NaN pandas returns on an
    empty column. *)
Definition mean (l : list V) : option V :=
  match l with
  | [] => None
  | _ :: _ => Some (vdivn (sum l) (List.length l))
  end.

(** A descending sort of a series indexed by [K] in which rows with
    equal values keep their input order: the order of [nlargest]'s merge
    sort, and one of the orders [sort_values(ascending=False)] may return
    (its default sort is not stable, see [sort_values_admits]). *)
Fixpoint insert_desc {K} (x : K * V) (l : list (K * V)) : list (K * V) :=
  match l with
  | [] => [x]
  | y :: l' => if vltb (snd x) (snd y) then y :: insert_desc x l' else x :: l
  end.

Definition sort_values_desc {K} (s : list (K * V)) : list (K * V) :=
  fold_right insert_desc [] s.

(** [Series.nlargest(n)] with the default [keep='first']: the [n]
    largest values, descending, first occurrences first among equals.
    With [n] at least the length of the series pandas sorts the whole
    series instead, and equal values may come in another order (see
    [nlargest_admits]). *)
Definition nlargest {K} (n : nat) (s : list (K * V)) : list (K * V) :=
  firstn n (sort_values_desc s).

(** [rows.groupby(key)[val].sum()]: one entry per distinct key, keys in
    ascending order (the default [sort=True]), each with the sum of its
    rows' values.  pandas adds a group up with a compensated (Kahan) sum,
    which is this sum whenever the additions are exact. *)
Definition groupby_sum {R K} `{Key K} (key : R -> K) (val : R -> V)
    (rows : list R) : list (K * V) :=
  map (fun k => (k, sum (map val (filter (fun r => keqb (key r) k) rows))))
      (sorted (unique (map key rows))).
End Reductions.
End pd.

(** ** Data model *)

(** A calendar date; [load_data] keeps only what [dt.year] and
    [dt.month_name()] read. *)
Record date := mkdate { year : Z; month : Z; day : Z }.

(** One row of the frame [load_data] returns, after [dropna]:
    columns [State], [Date], [Sector], [Emissions], [Year], [Month]. *)
Record EmissionRecord (V : Type) := mkrec {
  State     : string;
  Date      : date;
  Sector    : string;
  Emissions : V;
  Year      : Z;
  Month     : string
}.

Definition Dataset (V : Type) := list (EmissionRecord V).

(** The three sidebar multiselects. *)
Record FilterSelection := mksel {
  selected_years     : list Z;
  selected_provinces : list string;
  selected_sectors   : list string
}.

(** ** Filter engine (script lines 78-117) *)

Section FilterEngine.
Context {V : Type}.
Implicit Types (df : Dataset V) (s : FilterSelection) (r : EmissionRecord V).

Definition all_provinces df : list string := pd.unique (map (@State V) df).
Definition all_sectors df : list string := pd.unique (map (@Sector V) df).
Definition all_years df : list Z := pd.sorted (pd.unique (map (@Year V) df)).

(** [if not selected: selected = everything]; [selected] is the list the
    multiselect returned. *)
Definition or_all {K} (selected : list K) (everything : pd.Operand K)
  : pd.Operand K :=
  match selected with
  | [] => everything
  | _ :: _ => pd.py_list selected
  end.

(** Lines 108-117.  [all_years] is a [list] (it went through [sorted]);
    [all_provinces] and [all_sectors] are the arrays [unique()] returned.
    The three comparisons of the query are all evaluated, left to right,
    and the first exception is the query's. *)
Definition df_filtered df s : Outcome (Dataset V) :=
  let selected_years :=
    or_all (selected_years s) (pd.py_list (all_years df)) in
  let selected_provinces :=
    or_all (selected_provinces s) (pd.ndarray (all_provinces df)) in
  let selected_sectors :=
    or_all (selected_sectors s) (pd.ndarray (all_sectors df)) in
  match pd.query_eq (map (@Year V) df) selected_years with
  | Raised e => Raised e
  | Returned m_year =>
      match pd.query_eq (map (@State V) df) selected_provinces with
      | Raised e => Raised e
      | Returned m_state =>
          match pd.query_eq (map (@Sector V) df) selected_sectors with
          | Raised e => Raised e
          | Returned m_sector =>
              Returned (pd.select
                          (pd.mask_and (pd.mask_and m_year m_state) m_sector)
                          df)
          end
      end
  end.

End FilterEngine.

(** ** Aggregator (script lines 92, 135-136, 174-175, 190, 241) *)

Section Aggregator.
Context {V : Type} `{Arith V}.
Implicit Types (df : Dataset V).

Definition total_emissions df : V := pd.sum (map (@Emissions V) df).

Definition avg_daily_emissions df : option V := pd.mean (map (@Emissions V) df).

(** [df.groupby(key)['Emissions'].sum()] *)
Definition group_sum_by_key {K} `{Key K} df (key : EmissionRecord V -> K)
  : list (K * V) :=
  pd.groupby_sum key (@Emissions V) df.

(** [df.groupby('State')['Emissions'].sum().nlargest(n)] *)
Definition top_n_by_region df (n : nat) : list (string * V) :=
  pd.nlargest n (group_sum_by_key df (@State V)).

(** Line 92: the default of the province multiselect. *)
Definition top_5_provinces df : list string := map fst (top_n_by_region df 5).

(** Lines 174-175: the bar chart's table. *)
Definition province_data df : list (string * V) :=
  pd.sort_values_desc (group_sum_by_key df (@State V)).

(** Line 190: the pie chart's table. *)
Definition sector_data df : list (string * V) := group_sum_by_key df (@Sector V).

(** Line 241 *)
Definition industry_emissions df : V :=
  pd.sum (map (@Emissions V)
              (filter (fun r => String.eqb (Sector r) "Industry") df)).

(** Sum of the values of a summary table, in table order. *)
Definition sum_values {K} (t : list (K * V)) : V := pd.sum (map snd t).
End Aggregator.

(** ** Calendar and the [%d/%m/%Y] format *)

Definition month_name (m : Z) : string :=
  match m with
  | 1 => "January" | 2 => "February" | 3 => "March" | 4 => "April"
  | 5 => "May" | 6 => "June" | 7 => "July" | 8 => "August"
  | 9 => "September" | 10 => "October" | 11 => "November" | 12 => "December"
  | _ => EmptyString
  end.

Definition is_leap (y : Z) : bool :=
  ((y mod 4 =? 0) && (negb (y mod 100 =? 0) || (y mod 400 =? 0)))%Z.

Definition days_in_month (y m : Z) : Z :=
  match m with
  | 2 => if is_leap y then 29 else 28
  | 4 | 6 | 9 | 11 => 30
  | _ => 31
  end.

Definition valid_date (d : date) : bool :=
  (1 <=? year d) && (1 <=? month d) && (month d <=? 12)
  && (1 <=? day d) && (day d <=? days_in_month (year d) (month d)).

Definition is_digit (c : ascii) : bool :=
  let n := N_of_ascii c in ((48 <=? n) && (n <=? 57))%N.

(** Longest prefix of decimal digits, and the rest. *)
Fixpoint span_digits (s : string) : string * string :=
  match s with
  | EmptyString => (EmptyString, EmptyString)
  | String c s' =>
      if is_digit c
      then let (a, b) := span_digits s' in (String c a, b)
      else (EmptyString, s)
  end.

Fixpoint digits_value (s : string) (acc : Z) : Z :=
  match s with
  | EmptyString => acc
  | String c s' => digits_value s' (10 * acc + (Z.of_N (N_of_ascii c) - 48))
  end.

Definition expect_slash (s : string) : option string :=
  match s with
  | String "/"%char s' => Some s'
  | _ => None
  end.

(** The day field of [%d]: one or two digits, or a space and one digit. *)
Definition span_day (s : string) : string * string :=
  match s with
  | String " "%char (String c s') =>
      if is_digit c
      then (String " "%char (String c EmptyString), s')
      else (EmptyString, s)
  | _ => span_digits s
  end.

Definition day_value (dd : string) : Z :=
  match dd with
  | String " "%char d => digits_value d 0
  | _ => digits_value dd 0
  end.

(** [strptime(s, '%d/%m/%Y')] with an exact match: the day (one or two
    digits, or a space and a digit), a slash, one or two digits of month,
    a slash, four digits of year, and the three numbers form a date of the
    calendar. *)
Definition strptime_dmY (s : string) : option date :=
  let (dd, r1) := span_day s in
  match expect_slash r1 with
  | None => None
  | Some r2 =>
      let (mm, r3) := span_digits r2 in
      match expect_slash r3 with
      | None => None
      | Some r4 =>
          let (yyyy, r5) := span_digits r4 in
          let d := {| year := digits_value yyyy 0;
                      month := digits_value mm 0;
                      day := day_value dd |} in
          if (String.length r5 =? 0)%nat
             && (1 <=? String.length dd)%nat && (String.length dd <=? 2)%nat
             && (1 <=? String.length mm)%nat && (String.length mm <=? 2)%nat
             && (String.length yyyy =? 4)%nat
             && valid_date d
          then Some d else None
      end
  end.

(** ** Loader (script lines 13-63) *)

(** A cell of the [Date] column as [read_excel] delivers it. *)
Inductive DateCell :=
| DateBlank
| DateValue (d : date)             (* a native date cell *)
| DateText (s : string).

(** A sheet row, restricted to the four columns the script asks for. *)
Record SheetRow (V : Type) := mkrow {
  cell_State  : option string;
  cell_Date   : DateCell;
  cell_Sector : option string;
  cell_MtCO2  : option V
}.

(** The file behind a path: unreadable, or a sheet with the column names
    of its header row.  Cells under a name absent from [header] are not
    there to be read. *)
Inductive Source (V : Type) :=
| Unreadable (e : PyExn)
| Sheet (header : list string) (body : list (SheetRow V)).
Arguments Unreadable {V} e.

(** The frame during cleaning, where every cell may be null. *)
Record RawRow (V : Type) := mkraw {
  raw_State     : option string;
  raw_Date      : option date;
  raw_Sector    : option string;
  raw_Emissions : option V;
  raw_Year      : option Z;
  raw_Month     : option string
}.

(** The frame [load_data] returns. *)
Record DataFrame (V : Type) := mkframe {
  columns : list string;
  rows    : Dataset V
}.

Section Loader.
Context {V : Type}.

Definition relevant_cols : list string :=
  ["State"; "Date"; "Sector"; "MtCO2 per day"].

(** [pd.DataFrame()] *)
Definition pd_DataFrame : DataFrame V := {| columns := []; rows := [] |}.

(** [df.empty]: some axis has length zero. *)
Definition empty (df : DataFrame V) : bool :=
  (List.length (columns df) =? 0)%nat || (List.length (rows df) =? 0)%nat.

(** [pd.read_excel(filepath, usecols=relevant_cols)] *)
Definition read_excel (src : Source V) (usecols : list string)
  : Outcome (list (SheetRow V)) :=
  match src with
  | Unreadable e => Raised e
  | Sheet header body =>
      if forallb (fun c => pd.isin c header) usecols
      then Returned body
      else Raised (ValueError
             "Usecols do not match columns, columns expected but not found")
  end.

(** [pd.api.types.is_datetime64_any_dtype]: the column came out of the
    reader as dates, possibly with blanks. *)
Definition is_datetime64_any_dtype (col : list DateCell) : bool :=
  forallb (fun c => match c with DateText _ => false | _ => true end) col
  && existsb (fun c => match c with DateValue _ => true | _ => false end) col.

Definition timestamp (c : DateCell) : option date :=
  match c with
  | DateValue d => Some d
  | _ => None
  end.

(** The texts [to_datetime] reads as a missing date instead of parsing
    them. *)
Definition nat_strings : list string :=
  ["NaT"; "nat"; "NAT"; "nan"; "NaN"; "NAN"].

Definition is_nat_string (s : string) : bool :=
  (String.length s =? 0)%nat || pd.isin s nat_strings.

(** [pd.to_datetime(col, format='%d/%m/%Y')]: the first value that does
    not match raises; blanks and the NaT texts become NaT. *)
Fixpoint to_datetime (col : list DateCell) : Outcome (list (option date)) :=
  match col with
  | [] => Returned []
  | c :: col' =>
      match c with
      | DateText s =>
          if is_nat_string s
          then match to_datetime col' with
               | Returned ds => Returned (None :: ds)
               | Raised e => Raised e
               end
          else
          match strptime_dmY s with
          | None => Raised (ValueError
                      "time data doesn't match format '%d/%m/%Y'")
          | Some d =>
              match to_datetime col' with
              | Returned ds => Returned (Some d :: ds)
              | Raised e => Raised e
              end
          end
      | _ =>
          match to_datetime col' with
          | Returned ds => Returned (timestamp c :: ds)
          | Raised e => Raised e
          end
      end
  end.

(** Lines 43, 57, 58: rename, then the two derived columns. *)
Definition with_calendar (row : SheetRow V) (d : option date) : RawRow V :=
  {| raw_State := cell_State row;
     raw_Date := d;
     raw_Sector := cell_Sector row;
     raw_Emissions := cell_MtCO2 row;
     raw_Year := option_map year d;
     raw_Month := option_map (fun d => month_name (month d)) d |}.

(** [dropna]: a row survives when none of its six cells is null. *)
Definition complete (x : RawRow V) : option (EmissionRecord V) :=
  match raw_State x, raw_Date x, raw_Sector x,
        raw_Emissions x, raw_Year x, raw_Month x with
  | Some st, Some d, Some se, Some e, Some y, Some m =>
      Some {| State := st; Date := d; Sector := se;
              Emissions := e; Year := y; Month := m |}
  | _, _, _, _, _, _ => None
  end.

Fixpoint dropna (l : list (RawRow V)) : Dataset V :=
  match l with
  | [] => []
  | x :: l' =>
      match complete x with
      | Some r => r :: dropna l'
      | None => dropna l'
      end
  end.

Definition load_data (disk : string -> Source V) (filepath : string)
  : Outcome (DataFrame V) * list UIMessage :=
  match read_excel (disk filepath) relevant_cols with
  | Raised e =>
      (Returned pd_DataFrame,
       [st_error ("Critical Error loading data: " ++ str e);
        st_info "This error can occur if the 'openpyxl' library is not installed or the file is corrupt.";
        st_info ("Filepath used: " ++ filepath)])
  | Returned df_clean =>
      if (List.length df_clean =? 0)%nat
      then (Returned pd_DataFrame, [st_warning "Data loaded but is empty."])
      else
        let Date_col := map (@cell_Date V) df_clean in
        match (if is_datetime64_any_dtype Date_col
               then Returned (map timestamp Date_col)
               else to_datetime Date_col) with
        | Raised date_e =>
            (Returned pd_DataFrame,
             [st_error ("Error converting 'Date' column: " ++ str date_e);
              st_info "Please check if the 'Date' column format is dd/mm/yyyy or if it's already a date."])
        | Returned dates =>
            (Returned
               {| columns := ["State"; "Date"; "Sector"; "Emissions"; "Year"; "Month"];
                  rows := dropna (zip_with with_calendar df_clean dates) |},
             [])
        end
  end.
End Loader.

(** ** The script from top to the key metrics (lines 66-150) *)

Record Tab1 (V : Type) := mktab1 {
  shown_total_emissions     : V;
  shown_avg_daily_emissions : option V;
  shown_n_provinces         : nat;
  shown_province_data       : list (string * V);
  shown_sector_data         : list (string * V)
}.

Inductive Screen (V : Type) :=
| Crashed (e : PyExn)                          (* an exception reached the top *)
| Stopped (shown : list UIMessage)             (* [st.stop()] *)
| Rendered (shown : list UIMessage) (t : Tab1 V).
Arguments Crashed {V} e.
Arguments Stopped {V} shown.

Section Script.
Context {V : Type} `{Arith V}.

(** Lines 106-150 on a loaded, non-empty frame. *)
Definition run_filters (df : Dataset V) (s : FilterSelection)
    (shown : list UIMessage) : Screen V :=
  match df_filtered df s with
  | Raised e => Crashed e
  | Returned filtered =>
      if (List.length filtered =? 0)%nat
      then Stopped (shown ++ [st_warning
             "No data available for the selected filters. Please adjust your selection."])
      else Rendered shown
             {| shown_total_emissions := total_emissions filtered;
                shown_avg_daily_emissions := avg_daily_emissions filtered;
                shown_n_provinces :=
                  match selected_provinces s with
                  | [] => List.length (all_provinces df)
                  | chosen => List.length chosen
                  end;
                shown_province_data := province_data filtered;
                shown_sector_data := sector_data filtered |}
  end.

Definition dashboard (disk : string -> Source V) (s : FilterSelection) : Screen V :=
  match load_data disk "carbon_emissions_china.xlsx" with
  | (Raised e, _) => Crashed e
  | (Returned df, shown) =>
      if empty df then Stopped shown else run_filters (rows df) s shown
  end.
End Script.

(** ** Vocabulary of the statements *)

Section FilterVocabulary.
Context {V : Type}.
Implicit Types (df : Dataset V) (s : FilterSelection) (r : EmissionRecord V).

(** The filter as the specification words it: a selection set that is
    empty stands for every value the dataset has in that dimension, and a
    record is kept when each of its three values is a member. *)
Definition substituted {K} (chosen : list K) (values_in_dataset : list K) :=
  if Nat.eqb (List.length chosen) 0 then values_in_dataset else chosen.

Definition spec_keeps df s r : Prop :=
  In (Year r) (substituted (selected_years s) (map (@Year V) df)) /\
  In (State r) (substituted (selected_provinces s) (map (@State V) df)) /\
  In (Sector r) (substituted (selected_sectors s) (map (@Sector V) df)).

(** A value passes a selection when it is chosen or nothing is chosen. *)
Definition chosen_or_any {K} `{Key K} (chosen : list K) (x : K) : bool :=
  match chosen with
  | [] => true
  | _ :: _ => pd.isin x chosen
  end.

Definition keeps s r : bool :=
  chosen_or_any (selected_years s) (Year r)
  && chosen_or_any (selected_provinces s) (State r)
  && chosen_or_any (selected_sectors s) (Sector r).

(** The comparison of a column with the selection can be evaluated:
    always with a chosen list, and with the array of the column's
    distinct values only if the column is as long as that array. *)
Definition comparable {K} `{Key K} (chosen : list K) (col : list K) : bool :=
  match chosen with
  | [] => (List.length col =? List.length (pd.unique col))%nat
  | _ :: _ => true
  end.

Definition query_evaluates df s : bool :=
  comparable (selected_provinces s) (map (@State V) df)
  && comparable (selected_sectors s) (map (@Sector V) df).

(** [Subseq l1 l2]: [l1] is [l2] with some elements struck out. *)
Inductive Subseq {A} : list A -> list A -> Prop :=
| Subseq_nil : Subseq [] []
| Subseq_keep x l1 l2 : Subseq l1 l2 -> Subseq (x :: l1) (x :: l2)
| Subseq_drop x l1 l2 : Subseq l1 l2 -> Subseq l1 (x :: l2).

(** [Selects P l1 l2]: [l1] is exactly the elements of [l2] satisfying
    [P], each as often and in the order it occurs in [l2]. *)
Inductive Selects {A} (P : A -> Prop) : list A -> list A -> Prop :=
| Selects_nil : Selects P [] []
| Selects_keep x l1 l2 : P x -> Selects P l1 l2 -> Selects P (x :: l1) (x :: l2)
| Selects_drop x l1 l2 : ~ P x -> Selects P l1 l2 -> Selects P l1 (x :: l2).
End FilterVocabulary.

Section Ranking.
Context {V : Type} `{Arith V} {K : Type} `{Key K}.


Definition name_before (a b : K * V) : Prop := kltb (fst a) (fst b) = true.





End Ranking.

Section RankingOfRegions.
Context {V : Type} `{Arith V}.


End RankingOfRegions.




Section SheetVocabulary.
Context {V : Type}.
Implicit Types (src : Source V) (body : list (SheetRow V)) (col : list DateCell).

(** Some required column is absent from the sheet's header. *)
Definition missing_columns src : Prop :=
  match src with
  | Unreadable _ => False
  | Sheet header _ => exists c, In c relevant_cols /\ ~ In c header
  end.

(** What a [Date] cell stands for once the column is converted. *)
Definition parsed (c : DateCell) : option date :=
  match c with
  | DateBlank => None
  | DateValue d => Some d
  | DateText s => strptime_dmY s
  end.

(** The column is not of date type and one of its texts, not a NaT
    text, does not match the format. *)
Definition date_parse_fails col : Prop :=
  is_datetime64_any_dtype col = false
  /\ exists s, In (DateText s) col
              /\ is_nat_string s = false /\ strptime_dmY s = None.




(** The three ways a load can fail. *)
Definition load_fails src : Prop :=
  match src with
  | Unreadable _ => True
  | Sheet header body =>
      missing_columns src
      \/ date_parse_fails (map (@cell_Date V) body)
  end.

(** A sheet row with no blank cell, as the record it becomes. *)
Definition clean_record (row : SheetRow V) : option (EmissionRecord V) :=
  match cell_State row, parsed (cell_Date row),
        cell_Sector row, cell_MtCO2 row with
  | Some st, Some d, Some se, Some e =>
      Some {| State := st; Date := d; Sector := se; Emissions := e;
              Year := year d; Month := month_name (month d) |}
  | _, _, _, _ => None
  end.

Fixpoint keep_complete (body : list (SheetRow V)) : Dataset V :=
  match body with
  | [] => []
  | row :: body' =>
      match clean_record row with
      | Some r => r :: keep_complete body'
      | None => keep_complete body'
      end
  end.

End SheetVocabulary.

(** ** Concrete data *)

(** The example dataset of the specification, in exact integers. *)
Definition spec_example : Dataset Z :=
  [ {| State := "Shandong"; Date := mkdate 2023 1 1; Sector := "Power";
       Emissions := 10; Year := 2023; Month := "January" |};
    {| State := "Shandong"; Date := mkdate 2023 1 1; Sector := "Industry";
       Emissions := 5; Year := 2023; Month := "January" |};
    {| State := "Beijing"; Date := mkdate 2023 1 2; Sector := "Power";
       Emissions := 2; Year := 2023; Month := "January" |} ].

(** The selections of the two filter examples. *)
Definition power_2023_any_region : FilterSelection :=
  {| selected_years := [2023];
     selected_provinces := [];
     selected_sectors := ["Power"] |}.

Definition nothing_selected : FilterSelection :=
  {| selected_years := []; selected_provinces := []; selected_sectors := [] |}.

Definition power_2023 : FilterSelection :=
  {| selected_years := [2023];
     selected_provinces := ["Shandong"; "Beijing"];
     selected_sectors := ["Power"] |}.

Definition aviation_only : FilterSelection :=
  {| selected_years := [];
     selected_provinces := ["Shandong"];
     selected_sectors := ["Aviation"] |}.

Set Warnings "-inexact-float".

(** Three binary64 readings on which the order of additions shows. *)
Definition rounding_example : Dataset float :=
  [ {| State := "Beijing"; Date := mkdate 2023 1 1; Sector := "Power";
       Emissions := 0.1%float; Year := 2023; Month := "January" |};
    {| State := "Anhui"; Date := mkdate 2023 1 1; Sector := "Industry";
       Emissions := 0.2%float; Year := 2023; Month := "January" |};
    {| State := "Anhui"; Date := mkdate 2023 1 2; Sector := "Industry";
       Emissions := 0.3%float; Year := 2023; Month := "January" |} ].

Set Warnings "+inexact-float".

Definition january_rows : list (SheetRow Z) :=
  [ {| cell_State := Some "Shandong"; cell_Date := DateText "01/01/2023";
       cell_Sector := Some "Power"; cell_MtCO2 := Some 10 |};
    {| cell_State := Some "Shandong"; cell_Date := DateText "01/01/2023";
       cell_Sector := Some "Industry"; cell_MtCO2 := Some 5 |};
    {| cell_State := None; cell_Date := DateText "02/01/2023";
       cell_Sector := Some "Power"; cell_MtCO2 := Some 7 |};
    {| cell_State := Some "Beijing"; cell_Date := DateText "02/01/2023";
       cell_Sector := Some "Power"; cell_MtCO2 := Some 2 |} ].

(** The four required columns among others. *)
Definition good_sheet : Source Z :=
  Sheet ["Country"; "State"; "Date"; "Sector"; "MtCO2 per day"] january_rows.

(** The emissions column is absent. *)
Definition sheet_without_emissions : Source Z :=
  Sheet ["State"; "Date"; "Sector"] january_rows.

(** Every date is written year first. *)
Definition iso_rows : list (SheetRow Z) :=
  [ {| cell_State := Some "Shandong"; cell_Date := DateText "2023-01-01";
       cell_Sector := Some "Power"; cell_MtCO2 := Some 10 |};
    {| cell_State := Some "Beijing"; cell_Date := DateText "2023-01-02";
       cell_Sector := Some "Power"; cell_MtCO2 := Some 2 |} ].

Definition sheet_with_iso_dates : Source Z :=
  Sheet ["State"; "Date"; "Sector"; "MtCO2 per day"] iso_rows.

Definition xlsx : string := "carbon_emissions_china.xlsx".

(** ** The rest of the script: time series, defaults, what-if block *)

(** Dates compare chronologically, as the timestamps of the [Date]
    column do. *)
Definition date_eqb (a b : date) : bool :=
  (year a =? year b) && (month a =? month b) && (day a =? day b).

Definition date_leb (a b : date) : bool :=
  (year a <? year b)
  || ((year a =? year b)
      && ((month a <? month b)
          || ((month a =? month b) && (day a <=? day b)))).

(** [a] is an earlier day than [b]. *)
Definition earlier (a b : date) : Prop :=
  year a < year b
  \/ (year a = year b
      /\ (month a < month b \/ (month a = month b /\ day a < day b))).

Lemma date_eqb_spec (a b : date) : reflect (a = b) (date_eqb a b).
Proof.
  destruct a as [ya ma da], b as [yb mb db]. unfold date_eqb; simpl.
  destruct (Z.eqb_spec ya yb); simpl; [|constructor; congruence].
  destruct (Z.eqb_spec ma mb); simpl; [|constructor; congruence].
  destruct (Z.eqb_spec da db); simpl; constructor; congruence.
Qed.

Lemma date_leb_iff (a b : date) :
  date_leb a b = true <->
  year a < year b
  \/ (year a = year b
      /\ (month a < month b \/ (month a = month b /\ day a <= day b))).
Proof.
  unfold date_leb.
  rewrite !orb_true_iff, !andb_true_iff, !orb_true_iff, !andb_true_iff.
  rewrite !Z.ltb_lt, !Z.eqb_eq, Z.leb_le. tauto.
Qed.

Lemma date_leb_total (a b : date) : date_leb a b = true \/ date_leb b a = true.
Proof. rewrite !date_leb_iff. lia. Qed.

Lemma date_leb_trans (a b c : date) :
  date_leb a b = true -> date_leb b c = true -> date_leb a c = true.
Proof. rewrite !date_leb_iff. lia. Qed.

Lemma date_leb_antisym (a b : date) :
  date_leb a b = true -> date_leb b a = true -> a = b.
Proof.
  rewrite !date_leb_iff. destruct a, b; simpl. intros H1 H2.
  f_equal; lia.
Qed.

#[export] Instance date_key : Key date := {
  keqb := date_eqb;
  kleb := date_leb;
  keqb_spec := date_eqb_spec;
  kleb_total := date_leb_total;
  kleb_trans := date_leb_trans;
  kleb_antisym := date_leb_antisym
}.

(** What the second tab shows under "Projected Impact" (lines 239-262):
    the slider and the savings computed from the industry emissions, or
    the hint to select the Industry sector. *)
Inductive WhatIf (V : Type) :=
| SavingsSlider (industry : V)
| IndustryHint (shown : UIMessage).
Arguments IndustryHint {V} shown.

Section RestOfScript.
Context {V : Type} `{Arith V}.
Implicit Types (df : Dataset V).

(** Line 157: [df_filtered.groupby('Date')['Emissions'].sum()]. *)
Definition time_series_data df : list (date * V) :=
  group_sum_by_key df (@Date V).

(** Lines 84-104: what the three multiselects hold before the user
    touches them. *)
Definition default_selection df : FilterSelection :=
  {| selected_years := all_years df;
     selected_provinces := top_5_provinces df;
     selected_sectors := all_sectors df |}.

(** Lines 240-262: [if industry_emissions > 0: ... else: st.info(...)]. *)
Definition what_if df : WhatIf V :=
  if vltb vzero (industry_emissions df)
  then SavingsSlider (industry_emissions df)
  else IndustryHint (st_info
         "Select the 'Industry' sector in the sidebar to use the 'What-if' scenario.").
End RestOfScript.

(** *** The page on a sheet whose emissions column is read as it is

    [read_excel] does not type the emissions column: a cell that is
    neither blank nor a number, a text say, is kept by [dropna] and makes
    the whole column of dtype [object].  Such a sheet is a [Source] over
    the carrier [Cell V]. *)
Inductive Cell (V : Type) :=
| number (v : V)
| text (s : string).
Arguments text {V} s.

Section UntypedEmissions.
Context {V : Type} `{Arith V}.

Definition is_text (c : option (Cell V)) : bool :=
  match c with
  | Some (text _) => true
  | _ => false
  end.

(** The dtype of the emissions column is [object]. *)
Definition object_dtype (src : Source (Cell V)) : bool :=
  match src with
  | Unreadable _ => false
  | Sheet _ body => existsb (fun row => is_text (cell_MtCO2 row)) body
  end.

(** The rows of a frame whose emissions are numbers, as such. *)
Fixpoint numbers (l : Dataset (Cell V)) : Dataset V :=
  match l with
  | [] => []
  | r :: l' =>
      match Emissions r with
      | number v =>
          {| State := State r; Date := Date r; Sector := Sector r;
             Emissions := v; Year := Year r; Month := Month r |} :: numbers l'
      | text _ => numbers l'
      end
  end.

(** Lines 66-150.  On a loaded, non-empty frame line 92 comes first:
    [groupby('State')['Emissions'].sum().nlargest(5)] raises a
    [TypeError] on a column of dtype [object], outside any [try]. *)
Definition page (disk : string -> Source (Cell V)) (s : FilterSelection)
  : Screen V :=
  match load_data disk "carbon_emissions_china.xlsx" with
  | (Raised e, _) => Crashed e
  | (Returned df, shown) =>
      if empty df then Stopped shown
      else if object_dtype (disk "carbon_emissions_china.xlsx")
           then Crashed (TypeError
                  "Cannot use method 'nlargest' with dtype object")
           else run_filters (numbers (rows df)) s shown
  end.

(** A sheet of numbers and blanks seen as a sheet read as it is. *)
Definition untyped_row (row : SheetRow V) : SheetRow (Cell V) :=
  {| cell_State := cell_State row;
     cell_Date := cell_Date row;
     cell_Sector := cell_Sector row;
     cell_MtCO2 := option_map (@number V) (cell_MtCO2 row) |}.

Definition untyped_record (r : EmissionRecord V) : EmissionRecord (Cell V) :=
  {| State := State r; Date := Date r; Sector := Sector r;
     Emissions := number (Emissions r); Year := Year r; Month := Month r |}.

Definition untyped (src : Source V) : Source (Cell V) :=
  match src with
  | Unreadable e => Unreadable e
  | Sheet header body => Sheet header (map untyped_row body)
  end.
End UntypedEmissions.

(** The good sheet with a note typed into one emissions cell. *)
Definition sheet_with_a_note : Source (Cell Z) :=
  Sheet ["State"; "Date"; "Sector"; "MtCO2 per day"]
    [ {| cell_State := Some "Shandong"; cell_Date := DateText "01/01/2023";
         cell_Sector := Some "Power"; cell_MtCO2 := Some (number 10) |};
      {| cell_State := Some "Beijing"; cell_Date := DateText "02/01/2023";
         cell_Sector := Some "Power"; cell_MtCO2 := Some (text "n/a yet") |} ].


(** * Properties *)

Example strptime_day_first :
  strptime_dmY "03/04/2023" = Some {| year := 2023; month := 4; day := 3 |}.
Proof. reflexivity. Qed.

Example strptime_space_padded_day :
  strptime_dmY " 1/01/2023" = Some {| year := 2023; month := 1; day := 1 |}.
Proof. reflexivity. Qed.

Example strptime_iso_rejected : strptime_dmY "2023-04-03" = None.
Proof. reflexivity. Qed.

Example strptime_no_13th_month : strptime_dmY "04/13/2023" = None.
Proof. reflexivity. Qed.

(** ** The list primitives *)

Section KeyFacts.
Context {K : Type} `{Key K}.

Lemma keqb_eq (a b : K) : keqb a b = true <-> a = b.
Proof. destruct (keqb_spec a b); split; congruence. Qed.

Lemma keqb_refl (a : K) : keqb a a = true.
Proof. now apply keqb_eq. Qed.

Lemma isin_In (x : K) (xs : list K) : pd.isin x xs = true <-> In x xs.
Proof.
  unfold pd.isin. rewrite existsb_exists. split.
  - intros (y & Hy & E). apply keqb_eq in E. now subst.
  - intros Hx. exists x. split; [assumption | apply keqb_refl].
Qed.

Lemma unique_In (x : K) (l : list K) : In x (pd.unique l) <-> In x l.
Proof.
  induction l as [|a l IH]; simpl; [tauto|].
  rewrite filter_In, IH, negb_true_iff.
  destruct (keqb_spec a x) as [->|Hne]; split; intros Hx; auto.
  - destruct Hx as [Hx|[Hx _]]; auto.
  - destruct Hx as [Hx|Hx]; [contradiction | auto].
Qed.

Lemma unique_NoDup (l : list K) : NoDup (pd.unique l).
Proof.
  induction l as [|a l IH]; simpl; constructor.
  - rewrite filter_In, negb_true_iff. intros [_ E].
    now rewrite keqb_refl in E.
  - now apply NoDup_filter.
Qed.

Lemma insort_perm (x : K) (l : list K) : Permutation (x :: l) (pd.insort x l).
Proof.
  induction l as [|y l IH]; simpl; [reflexivity|].
  destruct (kleb x y); [reflexivity|].
  rewrite perm_swap. now constructor.
Qed.

Lemma sorted_perm (l : list K) : Permutation l (pd.sorted l).
Proof.
  induction l as [|x l IH]; simpl; [constructor|].
  rewrite <- insort_perm. now constructor.
Qed.

Lemma sorted_In (x : K) (l : list K) : In x (pd.sorted l) <-> In x l.
Proof.
  split; apply Permutation_in;
    [symmetry; apply sorted_perm | apply sorted_perm].
Qed.

Lemma insort_sorted (x : K) (l : list K) :
  StronglySorted kle l -> StronglySorted kle (pd.insort x l).
Proof.
  induction 1 as [|y l Hs IH Hy]; simpl.
  - repeat constructor.
  - destruct (kleb x y) eqn:E.
    + constructor; [now constructor|].
      constructor; [exact E|].
      eapply Forall_impl; [|exact Hy]. intros z Hz.
      exact (kleb_trans _ _ _ E Hz).
    + constructor; [exact IH|].
      apply (Permutation_Forall (insort_perm x l)).
      constructor; [|exact Hy].
      destruct (kleb_total x y) as [F|F]; [congruence | exact F].
Qed.

Lemma sorted_sorted (l : list K) : StronglySorted kle (pd.sorted l).
Proof.
  induction l as [|x l IH]; simpl; [constructor | now apply insort_sorted].
Qed.
End KeyFacts.

Lemma filter_all {A} (f : A -> bool) (l : list A) :
  (forall x, In x l -> f x = true) -> filter f l = l.
Proof.
  induction l as [|a l IH]; simpl; intros Hall; [reflexivity|].
  rewrite (Hall a) by now left. f_equal. apply IH. intros; apply Hall; now right.
Qed.

Lemma filter_Selects {A} (P : A -> Prop) (f : A -> bool) (l : list A) :
  (forall x, In x l -> (f x = true <-> P x)) -> Selects P (filter f l) l.
Proof.
  induction l as [|a l IH]; simpl; intros Hf; [constructor|].
  assert (Hl : forall x, In x l -> (f x = true <-> P x))
    by (intros; apply Hf; now right).
  destruct (f a) eqn:E.
  - constructor; [apply Hf; auto | auto].
  - constructor; [|auto]. rewrite <- Hf by now left. congruence.
Qed.

Lemma Selects_Subseq {A} (P : A -> Prop) (l1 l2 : list A) :
  Selects P l1 l2 -> Subseq l1 l2.
Proof. induction 1; now constructor. Qed.

Lemma filter_filter_same {A} (f : A -> bool) (l : list A) :
  filter f (filter f l) = filter f l.
Proof.
  apply filter_all. intros x Hx. now apply filter_In in Hx.
Qed.

Lemma mask_and_map {A} (p q : A -> bool) (l : list A) :
  pd.mask_and (map p l) (map q l) = map (fun r => p r && q r) l.
Proof. unfold pd.mask_and. induction l; simpl; congruence. Qed.

Lemma select_map {A} (p : A -> bool) (l : list A) :
  pd.select (map p l) l = filter p l.
Proof.
  induction l as [|a l IH]; simpl; [reflexivity|].
  destruct (p a); now rewrite IH.
Qed.

Lemma NoDup_map_filter {A B} (f : A -> B) (g : A -> bool) (l : list A) :
  NoDup (map f l) -> NoDup (map f (filter g l)).
Proof.
  induction l as [|a l IH]; simpl; intros Hnd; [constructor|].
  inversion Hnd as [|? ? Hnotin Hnd']; subst.
  destruct (g a); simpl; [constructor|]; auto.
  intros Hin. apply Hnotin. apply in_map_iff in Hin.
  destruct Hin as (x & E & Hx). apply filter_In in Hx.
  apply in_map_iff. exists x. tauto.
Qed.

Section UniqueFacts.
Context {K : Type} `{Key K}.

Lemma filter_length_full {A} (f : A -> bool) (l : list A) :
  List.length (filter f l) = List.length l -> filter f l = l.
Proof.
  induction l as [|a l IH]; simpl; [reflexivity|].
  pose proof (filter_length_le f l) as Hle.
  destruct (f a); simpl; intros E; [f_equal; apply IH; lia | lia].
Qed.

Lemma unique_length_le (l : list K) :
  (List.length (pd.unique l) <= List.length l)%nat.
Proof.
  induction l as [|x l IH]; simpl; [lia|].
  pose proof (filter_length_le (fun y => negb (keqb x y)) (pd.unique l)). lia.
Qed.

(** A column as long as its [unique()] has no repeated value, and
    [unique()] returns it as it is. *)
Lemma unique_full (l : list K) :
  List.length l = List.length (pd.unique l) -> pd.unique l = l.
Proof.
  induction l as [|x l IH]; simpl; [reflexivity|]. intros E.
  pose proof (filter_length_le (fun y => negb (keqb x y)) (pd.unique l)) as H1.
  pose proof (unique_length_le l) as H2.
  assert (Hu : pd.unique l = l) by (apply IH; lia).
  f_equal. rewrite (filter_length_full _ (pd.unique l)) by lia. exact Hu.
Qed.

Lemma NoDup_unique (l : list K) : NoDup l -> pd.unique l = l.
Proof.
  induction 1 as [|x l Hnotin Hnd IH]; simpl; [reflexivity|].
  rewrite IH. f_equal. apply filter_all. intros y Hy.
  destruct (keqb_spec x y) as [->|]; [contradiction | reflexivity].
Qed.

Lemma full_iff_NoDup (l : list K) :
  List.length l = List.length (pd.unique l) <-> NoDup l.
Proof.
  split.
  - intros E. rewrite <- (unique_full l E). apply unique_NoDup.
  - intros Hnd. now rewrite (NoDup_unique Hnd).
Qed.

Lemma zip_with_keqb_self (l : list K) :
  zip_with keqb l l = map (fun _ => true) l.
Proof.
  induction l as [|x l IH]; simpl; [reflexivity|].
  now rewrite keqb_refl, IH.
Qed.
End UniqueFacts.

(** ** Filter engine *)

Section FilterFacts.
Context {V : Type}.
Implicit Types (D : Dataset V) (s : FilterSelection) (r : EmissionRecord V).

Lemma all_years_In D y : In y (all_years D) <-> In y (map (@Year V) D).
Proof. unfold all_years. now rewrite sorted_In, unique_In. Qed.

(** The comparison with a chosen list, and with the sorted list of all
    the column's values when nothing is chosen. *)
Lemma query_eq_list {K} `{Key K} (f : EmissionRecord V -> K)
      (chosen everything : list K) D :
  (forall r, In r D -> In (f r) everything) ->
  pd.query_eq (map f D) (or_all chosen (pd.py_list everything))
  = Returned (map (fun r => chosen_or_any chosen (f r)) D).
Proof.
  intros Hall. destruct chosen as [|c chosen]; simpl.
  - f_equal. rewrite map_map. apply map_ext_in. intros r Hr.
    now apply isin_In, Hall.
  - f_equal. now rewrite map_map.
Qed.

(** The comparison with a chosen list, and with the array of the
    column's distinct values when nothing is chosen. *)
Lemma query_eq_array {K} `{Key K} (f : EmissionRecord V -> K)
      (chosen : list K) D :
  pd.query_eq (map f D) (or_all chosen (pd.ndarray (pd.unique (map f D))))
  = if comparable chosen (map f D)
    then Returned (map (fun r => chosen_or_any chosen (f r)) D)
    else Raised (ValueError "Lengths must match to compare").
Proof.
  destruct chosen as [|c chosen]; simpl.
  - destruct (List.length (map f D) =? List.length (pd.unique (map f D)))%nat
      eqn:E; [|reflexivity].
    apply Nat.eqb_eq in E. rewrite (unique_full _ E), zip_with_keqb_self.
    now rewrite map_map.
  - f_equal. now rewrite map_map.
Qed.

(** What the query computes: it raises when an empty province or sector
    selection meets a column with a repeated value, and otherwise keeps
    the rows every non-empty selection contains. *)
Lemma df_filtered_eq D s :
  df_filtered D s
  = if query_evaluates D s
    then Returned (filter (keeps s) D)
    else Raised (ValueError "Lengths must match to compare").
Proof.
  unfold df_filtered, query_evaluates, all_provinces, all_sectors.
  rewrite (query_eq_list (@Year V)) by (intros r Hr; apply all_years_In; now apply in_map).
  rewrite (query_eq_array (@State V)).
  destruct (comparable (selected_provinces s) (map (@State V) D));
    [|reflexivity].
  rewrite (query_eq_array (@Sector V)).
  destruct (comparable (selected_sectors s) (map (@Sector V) D));
    [|reflexivity].
  simpl. rewrite !mask_and_map, select_map. reflexivity.
Qed.

Lemma comparable_filter {K} `{Key K} (f : EmissionRecord V -> K)
      (chosen : list K) (g : EmissionRecord V -> bool) D :
  comparable chosen (map f D) = true ->
  comparable chosen (map f (filter g D)) = true.
Proof.
  destruct chosen; simpl; [|reflexivity].
  rewrite !Nat.eqb_eq, !full_iff_NoDup. apply NoDup_map_filter.
Qed.

Lemma chosen_or_any_In {K} `{Key K} (chosen values : list K) x :
  In x values ->
  chosen_or_any chosen x = true <-> In x (substituted chosen values).
Proof.
  intros Hx. unfold chosen_or_any, substituted.
  destruct chosen as [|c chosen]; simpl; [tauto|].
  now rewrite <- (isin_In x (c :: chosen)).
Qed.

Lemma keeps_iff_spec D s r :
  In r D -> keeps s r = true <-> spec_keeps D s r.
Proof.
  intros Hr. unfold keeps, spec_keeps. rewrite !andb_true_iff.
  rewrite (chosen_or_any_In _ (map (@Year V) D)) by now apply in_map.
  rewrite (chosen_or_any_In _ (map (@State V) D)) by now apply in_map.
  rewrite (chosen_or_any_In _ (map (@Sector V) D)) by now apply in_map.
  tauto.
Qed.

(** Whenever the query returns, its result is the filter of the
    specification. *)
Lemma df_filtered_returned D s D' :
  df_filtered D s = Returned D' ->
  Selects (spec_keeps D s) D' D /\ Subseq D' D.
Proof.
  rewrite df_filtered_eq. destruct (query_evaluates D s); [|discriminate].
  intros E; inversion E; subst D'; clear E.
  assert (S : Selects (spec_keeps D s) (filter (keeps s) D) D)
    by (apply filter_Selects; intros r Hr; now apply keeps_iff_spec).
  split; [exact S | exact (Selects_Subseq S)].
Qed.

(** With a province and a sector chosen the query cannot raise. *)
Lemma df_filtered_with_choices D s :
  selected_provinces s <> [] -> selected_sectors s <> [] ->
  exists D', df_filtered D s = Returned D'
             /\ Selects (spec_keeps D s) D' D.
Proof.
  intros Hp Hs. exists (filter (keeps s) D).
  assert (E : df_filtered D s = Returned (filter (keeps s) D)).
  { rewrite df_filtered_eq. unfold query_evaluates.
    destruct (selected_provinces s); [congruence|].
    destruct (selected_sectors s); [congruence|]. reflexivity. }
  split; [exact E | exact (proj1 (df_filtered_returned _ _ E))].
Qed.

(** With no province chosen and a province on two rows, it raises. *)
Lemma df_filtered_raises_on_repeated_province D s :
  selected_provinces s = [] ->
  ~ NoDup (map (@State V) D) ->
  df_filtered D s = Raised (ValueError "Lengths must match to compare").
Proof.
  intros Hsel Hdup. rewrite df_filtered_eq. unfold query_evaluates.
  rewrite Hsel. simpl.
  destruct (List.length (map (@State V) D)
            =? List.length (pd.unique (map (@State V) D)))%nat eqn:E;
    [|reflexivity].
  exfalso. apply Hdup. now apply full_iff_NoDup, Nat.eqb_eq.
Qed.
End FilterFacts.

Section FilterClaims.
Context {V : Type}.
Implicit Types (D : Dataset V) (s : FilterSelection).

(** C5. [filter] is idempotent.  Whenever [filter(D, s)] returns a
    frame, filtering that frame again with [s] returns the same frame;
    and when it raises, filtering its result raises the same
    exception. *)
Theorem filter_idempotent D s :
  (forall D', df_filtered D s = Returned D' -> df_filtered D' s = Returned D')
  /\ match df_filtered D s with
     | Returned D' => df_filtered D' s
     | Raised e => Raised e
     end = df_filtered D s.
Proof.
  assert (Hret : forall D', df_filtered D s = Returned D' ->
                            df_filtered D' s = Returned D').
  { intros D'. rewrite (df_filtered_eq D s).
    destruct (query_evaluates D s) eqn:Hq; [|discriminate].
    intros E; inversion E; subst D'; clear E.
    rewrite df_filtered_eq.
    unfold query_evaluates in *. apply andb_true_iff in Hq.
    destruct Hq as [Hp Hs].
    rewrite (comparable_filter (@State V) _ (keeps s) D Hp).
    rewrite (comparable_filter (@Sector V) _ (keeps s) D Hs).
    simpl. now rewrite filter_filter_same. }
  split; [exact Hret|].
  destruct (df_filtered D s) as [D'|e] eqn:E; [|reflexivity].
  now apply Hret.
Qed.
End FilterClaims.

(** ** Aggregator: sums *)

Section SumFacts.
Context {V : Type} `{ExactArith V}.

Lemma fold_vadd_from (l : list V) (a : V) :
  fold_left vadd l a = vadd a (pd.sum l).
Proof.
  unfold pd.sum. revert a.
  induction l as [|x l IH]; intros a; simpl.
  - now rewrite vadd_comm, vadd_0_l.
  - rewrite (IH (vadd a x)), (IH (vadd vzero x)), vadd_0_l.
    symmetry. apply vadd_assoc.
Qed.

Lemma sum_cons (x : V) (l : list V) : pd.sum (x :: l) = vadd x (pd.sum l).
Proof.
  unfold pd.sum at 1. simpl. now rewrite fold_vadd_from, vadd_0_l.
Qed.

Lemma sum_partition {R} (val : R -> V) (f : R -> bool) (l : list R) :
  pd.sum (map val l)
  = vadd (pd.sum (map val (filter f l)))
         (pd.sum (map val (filter (fun r => negb (f r)) l))).
Proof.
  induction l as [|r l IH]; simpl.
  - unfold pd.sum; simpl. now rewrite vadd_0_l.
  - rewrite sum_cons, IH. destruct (f r); simpl; rewrite sum_cons.
    + apply vadd_assoc.
    + rewrite !vadd_assoc. f_equal. apply vadd_comm.
Qed.

(** Summing group by group over a duplicate-free list of keys that
    covers every row reaches every row once. *)
Lemma sum_over_groups {R K} `{Key K} (key : R -> K) (val : R -> V) :
  forall (ks : list K), NoDup ks ->
  forall (rows : list R), (forall r, In r rows -> In (key r) ks) ->
    pd.sum (map (fun k => pd.sum (map val (filter (fun r => keqb (key r) k) rows))) ks)
    = pd.sum (map val rows).
Proof.
  induction 1 as [|k ks Hk Hnd IH]; intros rows Hcov.
  - destruct rows as [|r rows]; [reflexivity|].
    destruct (Hcov r (or_introl eq_refl)).
  - simpl map. rewrite sum_cons.
    rewrite (sum_partition val (fun r => keqb (key r) k) rows). f_equal.
    rewrite <- (IH (filter (fun r => negb (keqb (key r) k)) rows)).
    + f_equal. apply map_ext_in. intros k' Hk'. f_equal. f_equal.
      clear - Hk Hk'. induction rows as [|r rows IHr]; simpl; [reflexivity|].
      destruct (keqb_spec (key r) k) as [E|E]; simpl.
      * destruct (keqb_spec (key r) k') as [E'|E']; [|exact IHr].
        exfalso. apply Hk. congruence.
      * destruct (keqb (key r) k'); [f_equal|]; exact IHr.
    + intros r Hr. apply filter_In in Hr. destruct Hr as [Hr Hne].
      destruct (Hcov r Hr) as [E|Hin]; [|exact Hin].
      subst k. now rewrite keqb_refl in Hne.
Qed.

Lemma groupby_sum_total {R K} `{Key K} (key : R -> K) (val : R -> V)
      (rows : list R) :
  pd.sum (map snd (pd.groupby_sum key val rows)) = pd.sum (map val rows).
Proof.
  unfold pd.groupby_sum. rewrite map_map. simpl.
  apply sum_over_groups.
  - apply (Permutation_NoDup (sorted_perm _)), unique_NoDup.
  - intros r Hr. apply sorted_In, unique_In. now apply in_map.
Qed.
End SumFacts.

Example spec_example_total : total_emissions spec_example = 17.
Proof. reflexivity. Qed.

Example spec_example_by_region :
  group_sum_by_key spec_example (@State Z) = [("Beijing", 2); ("Shandong", 15)].
Proof. reflexivity. Qed.

Example spec_example_top_1 :
  top_n_by_region spec_example 1 = [("Shandong", 15)].
Proof. reflexivity. Qed.

Example spec_example_filter_with_regions_chosen :
  df_filtered spec_example power_2023
  = Returned [ mkrec "Shandong" (mkdate 2023 1 1) "Power" 10 2023 "January";
               mkrec "Beijing" (mkdate 2023 1 2) "Power" 2 2023 "January" ].
Proof. reflexivity. Qed.

(** With one row per province and per sector the element-wise comparison
    has matching lengths and every row passes. *)
Example one_row_per_province_passes :
  df_filtered
    [ mkrec "Shandong" (mkdate 2023 1 1) "Power" 10 2023 "January";
      mkrec "Beijing" (mkdate 2023 1 2) "Industry" 2 2023 "January" ]
    nothing_selected
  = Returned
      [ mkrec "Shandong" (mkdate 2023 1 1) "Power" 10 2023 "January";
        mkrec "Beijing" (mkdate 2023 1 2) "Industry" 2 2023 "January" ].
Proof. reflexivity. Qed.

Example empty_dataset_filter (s : FilterSelection) :
  df_filtered (V := Z) [] s = Returned [].
Proof. now destruct s as [[|] [|] [|]]. Qed.

Example empty_dataset_aggregates :
  total_emissions (V := Z) [] = 0
  /\ avg_daily_emissions (V := Z) [] = None
  /\ top_n_by_region (V := Z) [] 5 = [].
Proof. repeat split. Qed.

(** C1 on the filter example of the specification: years [{2023}], no
    region, sector [{Power}].  The specification expects the two Power
    records; the query compares the three-row [State] column with the
    two-element array of distinct provinces and raises. *)
Theorem filter_raises_when_no_region_is_chosen :
  df_filtered spec_example power_2023_any_region
  = Raised (ValueError "Lengths must match to compare").
Proof. reflexivity. Qed.

(** C2 on the example dataset: with the three selections empty the
    query raises instead of returning the dataset. *)
Theorem filter_raises_when_nothing_is_selected :
  df_filtered spec_example nothing_selected
  = Raised (ValueError "Lengths must match to compare").
Proof. reflexivity. Qed.

Lemma filter_idempotent_witness :
  df_filtered
    [ mkrec "Shandong" (mkdate 2023 1 1) "Power" 10 2023 "January";
      mkrec "Beijing" (mkdate 2023 1 2) "Power" 2 2023 "January" ]
    power_2023
  = Returned [ mkrec "Shandong" (mkdate 2023 1 1) "Power" 10 2023 "January";
               mkrec "Beijing" (mkdate 2023 1 2) "Power" 2 2023 "January" ].
Proof.
  apply (proj1 (filter_idempotent spec_example power_2023)). reflexivity.
Defined.

Section SumClaims.
Context {V : Type} `{ExactArith V}.

(** C4 (as amended). When the additions are exact, that is associative
    and commutative with [0] neutral, as over the integers or the
    rationals, the grand total equals the sum of the per-region sums and
    the sum of the per-sector sums. *)
Theorem total_invariant_across_groupings (D : Dataset V) :
  total_emissions D = sum_values (group_sum_by_key D (@State V))
  /\ total_emissions D = sum_values (group_sum_by_key D (@Sector V)).
Proof.
  unfold total_emissions, sum_values, group_sum_by_key.
  split; symmetry; apply groupby_sum_total.
Qed.
End SumClaims.

Lemma total_invariant_across_groupings_witness :
  total_emissions spec_example
  = sum_values (group_sum_by_key spec_example (@State Z))
  /\ total_emissions spec_example
     = sum_values (group_sum_by_key spec_example (@Sector Z)).
Proof. exact (@total_invariant_across_groupings Z Z_arith Z_exact spec_example). Defined.

(** C4 as stated fails in binary64: the column sums to
    [(0.1 + 0.2) + 0.3 = 0.6000000000000001], the regions to
    [(0.2 + 0.3) + 0.1 = 0.6]. *)
Lemma total_differs_from_region_sums_in_binary64 :
  total_emissions rounding_example
  <> sum_values (group_sum_by_key rounding_example (@State float)).
Proof.
  intro E.
  apply (f_equal (fun x =>
    PrimFloat.eqb x (sum_values (group_sum_by_key rounding_example (@State float))))) in E.
  vm_compute in E. discriminate E.
Qed.

(** ** Aggregator: ranking *)

Section RankFacts.
Context {V : Type} `{Arith V} {K : Type} `{Key K}.

Lemma insert_desc_perm (x : K * V) (l : list (K * V)) :
  Permutation (x :: l) (pd.insert_desc x l).
Proof.
  induction l as [|y l IH]; simpl; [reflexivity|].
  destruct (vltb (snd x) (snd y)); [|reflexivity].
  rewrite perm_swap. now constructor.
Qed.

Lemma sort_values_desc_perm (s : list (K * V)) :
  Permutation s (pd.sort_values_desc s).
Proof.
  induction s as [|x s IH]; simpl; [constructor|].
  rewrite <- insert_desc_perm. now constructor.
Qed.




Lemma strictly_ascending (l : list K) :
  StronglySorted kle l -> NoDup l ->
  StronglySorted (fun a b => kltb a b = true) l.
Proof.
  induction 1 as [|x l Hs IH Hx]; intros Hnd; constructor;
    inversion Hnd as [|? ? Hnotin Hnd']; subst.
  - now apply IH.
  - rewrite Forall_forall in *. intros y Hy. unfold kltb.
    destruct (kleb y x) eqn:E; [|reflexivity].
    exfalso. apply Hnotin.
    rewrite (kleb_antisym _ _ (Hx y Hy) E). exact Hy.
Qed.

Lemma groupby_sum_ascending {R} (key : R -> K) (val : R -> V) (rows : list R) :
  StronglySorted name_before (pd.groupby_sum key val rows).
Proof.
  unfold pd.groupby_sum.
  assert (Hasc : StronglySorted (fun a b => kltb a b = true)
                   (pd.sorted (pd.unique (map key rows)))).
  { apply strictly_ascending; [apply sorted_sorted|].
    apply (Permutation_NoDup (sorted_perm _)), unique_NoDup. }
  induction Hasc as [|k ks Hs IH Hk]; simpl; constructor; [exact IH|].
  rewrite Forall_map. exact Hk.
Qed.

Lemma groupby_sum_keys {R} (key : R -> K) (val : R -> V) (rows : list R) :
  Permutation (map fst (pd.groupby_sum key val rows)) (pd.unique (map key rows)).
Proof.
  unfold pd.groupby_sum. rewrite map_map. simpl. rewrite map_id.
  symmetry. apply sorted_perm.
Qed.

Lemma groupby_sum_In {R} (key : R -> K) (val : R -> V) (rows : list R) k t :
  In (k, t) (pd.groupby_sum key val rows) <->
  In k (map key rows)
  /\ t = pd.sum (map val (filter (fun r => keqb (key r) k) rows)).
Proof.
  unfold pd.groupby_sum. rewrite in_map_iff. split.
  - intros (k' & E & Hk'). inversion E; subst.
    split; [|reflexivity]. now apply unique_In, sorted_In.
  - intros [Hk ->]. exists k. split; [reflexivity|].
    now apply sorted_In, unique_In.
Qed.
End RankFacts.

Lemma firstn_In {A} (n : nat) (l : list A) (x : A) :
  In x (firstn n l) -> In x l.
Proof.
  intros Hx. rewrite <- (firstn_skipn n l). apply in_or_app. now left.
Qed.

Lemma NoDup_firstn {A} (n : nat) (l : list A) : NoDup l -> NoDup (firstn n l).
Proof.
  intros Hnd. rewrite <- (firstn_skipn n l) in Hnd.
  exact (NoDup_app_remove_r _ _ Hnd).
Qed.

Section RankContract.
Context {V : Type} `{Arith V} {K : Type}.





End RankContract.

Section RankClaims.
Context {V : Type} `{Arith V}.

End RankClaims.





(** ** The date format *)

Lemma span_digits_app (s a b : string) :
  span_digits s = (a, b) -> s = a ++ b.
Proof.
  revert a b. induction s as [|c s IH]; simpl; intros a b E.
  - now inversion E.
  - destruct (is_digit c).
    + destruct (span_digits s) as [a' b'] eqn:Es. inversion E; subst.
      simpl. f_equal. now apply IH.
    + now inversion E.
Qed.

Lemma expect_slash_some (s r : string) :
  expect_slash s = Some r -> s = String "/"%char r.
Proof.
  destruct s as [|c s]; simpl; [discriminate|].
  destruct c as [[] [] [] [] [] [] [] []]; try discriminate.
  now inversion 1.
Qed.





Lemma nat_string_does_not_parse (s : string) :
  is_nat_string s = true -> strptime_dmY s = None.
Proof.
  unfold is_nat_string. rewrite orb_true_iff, isin_In. intros [E|E].
  - destruct s; [reflexivity | discriminate E].
  - simpl in E. repeat (destruct E as [<-|E]; [reflexivity|]). contradiction.
Qed.

(** ** Loader *)

Section LoaderFacts.
Context {V : Type}.
Implicit Types (src : Source V) (body : list (SheetRow V)) (col : list DateCell).

Lemma read_excel_missing src :
  missing_columns src ->
  read_excel src relevant_cols
  = Raised (ValueError
      "Usecols do not match columns, columns expected but not found").
Proof.
  destruct src as [e|header body]; unfold missing_columns, read_excel;
    [tauto|].
  intros (c & Hc & Hnot).
  destruct (forallb (fun c => pd.isin c header) relevant_cols) eqn:E;
    [|reflexivity].
  exfalso. apply Hnot. rewrite forallb_forall in E.
  now apply isin_In, E.
Qed.


Lemma to_datetime_raises col :
  (exists s, In (DateText s) col
             /\ is_nat_string s = false /\ strptime_dmY s = None) ->
  to_datetime col
  = Raised (ValueError "time data doesn't match format '%d/%m/%Y'").
Proof.
  intros (s & Hin & Hnat & Hs).
  induction col as [|c col IH]; simpl in *; [contradiction|].
  destruct Hin as [->|Hin].
  - now rewrite Hnat, Hs.
  - specialize (IH Hin). rewrite IH.
    destruct c as [|d|s']; try reflexivity.
    destruct (is_nat_string s'); [reflexivity|].
    now destruct (strptime_dmY s').
Qed.


Lemma datetime_dtype_parsed col :
  is_datetime64_any_dtype col = true -> map timestamp col = map parsed col.
Proof.
  unfold is_datetime64_any_dtype. rewrite andb_true_iff. intros [Hall _].
  rewrite forallb_forall in Hall. apply map_ext_in. intros c Hc.
  specialize (Hall c Hc). now destruct c.
Qed.

Lemma to_datetime_cases col :
  to_datetime col = Returned (map parsed col)
  \/ to_datetime col
     = Raised (ValueError "time data doesn't match format '%d/%m/%Y'").
Proof.
  induction col as [|c col IH]; simpl; [now left|].
  destruct c as [|d|s]; simpl.
  - destruct IH as [-> | ->]; auto.
  - destruct IH as [-> | ->]; auto.
  - destruct (is_nat_string s) eqn:Hnat.
    + rewrite (nat_string_does_not_parse _ Hnat).
      destruct IH as [-> | ->]; auto.
    + destruct (strptime_dmY s); [|now right].
      destruct IH as [-> | ->]; auto.
Qed.

Lemma zip_with_map {A B C} (f : A -> B -> C) (g : A -> B) (l : list A) :
  zip_with f l (map g l) = map (fun x => f x (g x)) l.
Proof. induction l; simpl; congruence. Qed.

Lemma dropna_In (l : list (RawRow V)) (r : EmissionRecord V) :
  In r (dropna l) <-> exists x, In x l /\ complete x = Some r.
Proof.
  induction l as [|x l IH]; simpl.
  - split; [contradiction | now intros (? & [] & _)].
  - destruct (complete x) as [r'|] eqn:E; simpl; rewrite IH; split.
    + intros [->|(y & Hy & Ey)]; eauto.
    + intros (y & [->|Hy] & Ey); [left; congruence | eauto].
    + intros (y & Hy & Ey); eauto.
    + intros (y & [->|Hy] & Ey); [congruence | eauto].
Qed.
End LoaderFacts.

Section LoaderClaims.
Context {V : Type}.
Implicit Types (disk : string -> Source V) (filepath : string).

Lemma complete_with_calendar (row : SheetRow V) :
  complete (with_calendar row (parsed (cell_Date row))) = clean_record row.
Proof.
  unfold complete, with_calendar, clean_record; simpl.
  destruct (cell_State row), (parsed (cell_Date row)),
    (cell_Sector row), (cell_MtCO2 row); reflexivity.
Qed.

Lemma dropna_keep_complete (body : list (SheetRow V)) :
  dropna (map (fun row => with_calendar row (parsed (cell_Date row))) body)
  = keep_complete body.
Proof.
  induction body as [|row body IH]; simpl; [reflexivity|].
  now rewrite complete_with_calendar, IH.
Qed.


(** [load_data] returns either the empty frame or the cleaned sheet. *)
Lemma load_data_returns disk filepath :
  fst (load_data disk filepath) = Returned pd_DataFrame
  \/ exists header body,
       disk filepath = Sheet header body
       /\ fst (load_data disk filepath)
          = Returned {| columns := ["State"; "Date"; "Sector";
                                    "Emissions"; "Year"; "Month"];
                        rows := keep_complete body |}.
Proof.
  unfold load_data.
  destruct (disk filepath) as [e|header body] eqn:Esrc; [now left|].
  unfold read_excel.
  destruct (forallb _ relevant_cols); [|now left].
  destruct (List.length body =? 0)%nat; [now left|].
  destruct (is_datetime64_any_dtype (map (@cell_Date V) body)) eqn:Edt.
  - right. exists header, body. split; [reflexivity|]. simpl.
    rewrite (datetime_dtype_parsed _ Edt), map_map, zip_with_map.
    now rewrite dropna_keep_complete.
  - destruct (to_datetime_cases (map (@cell_Date V) body)) as [-> | ->];
      [|now left].
    right. exists header, body. split; [reflexivity|]. simpl.
    rewrite map_map, zip_with_map. now rewrite dropna_keep_complete.
Qed.

(** C6 (as amended). For a source that lacks one of the four required
    columns, [load_data] does not raise: it reports the reader's error on
    the page and returns the empty frame [pd.DataFrame()], so no partial
    dataset comes back. *)
Theorem missing_columns_yield_empty_frame disk filepath :
  missing_columns (disk filepath) ->
  load_data disk filepath
  = (Returned pd_DataFrame,
     [st_error ("Critical Error loading data: "
                ++ "Usecols do not match columns, columns expected but not found");
      st_info "This error can occur if the 'openpyxl' library is not installed or the file is corrupt.";
      st_info ("Filepath used: " ++ filepath)])
  /\ rows (@pd_DataFrame V) = []
  /\ empty (@pd_DataFrame V) = true.
Proof.
  intros Hmiss. unfold load_data.
  rewrite (read_excel_missing _ Hmiss). auto.
Qed.



(** C9. [load_data] never raises.  On each failure (unreadable source,
    missing required column, a date text that does not match) it returns
    the empty frame [pd.DataFrame()], the very value it returns for a
    readable sheet that has the four columns and no rows; and the
    caller's [df.empty] test is true of every returned frame that holds
    no record. *)
Theorem load_data_never_raises disk filepath :
  (exists df, fst (load_data disk filepath) = Returned df)
  /\ (load_fails (disk filepath) ->
        fst (load_data disk filepath) = Returned pd_DataFrame
        /\ fst (load_data disk filepath)
           = fst (load_data (fun _ => Sheet relevant_cols []) filepath)
        /\ ~ load_fails (Sheet (V := V) relevant_cols []))
  /\ (forall df, fst (load_data disk filepath) = Returned df ->
        rows df = [] -> empty df = true).
Proof.
  split; [|split].
  - destruct (load_data_returns disk filepath)
      as [E | (header & body & _ & E)]; rewrite E; eauto.
  - intros Hfail.
    assert (E : fst (load_data disk filepath) = Returned pd_DataFrame).
    { unfold load_data.
      destruct (disk filepath) as [e|header body] eqn:Esrc; [reflexivity|].
      destruct Hfail as [Hmiss | [Hdt Hbad]].
      - now rewrite (read_excel_missing _ Hmiss).
      - unfold read_excel.
        destruct (forallb _ relevant_cols); [|reflexivity].
        destruct (List.length body =? 0)%nat; [reflexivity|].
        now rewrite Hdt, (to_datetime_raises _ Hbad). }
    split; [exact E|]. split; [rewrite E; reflexivity|].
    intros [(c & Hc & Hnot) | [_ (s & [] & _)]]. now apply Hnot.
  - intros df _ Hrows. unfold empty. rewrite Hrows. simpl.
    apply orb_true_r.
Qed.
End LoaderClaims.

(** ** The guard before the key metrics *)

Section ScriptClaims.
Context {V : Type} `{Arith V}.

Lemma mean_nonempty (l : list V) :
  l <> [] -> pd.mean l = Some (vdivn (pd.sum l) (List.length l)).
Proof. destruct l; [congruence | reflexivity]. Qed.

(** C10. The script stops at line 121 whenever the filtered frame is
    empty, before any aggregate is computed; so whenever the key metrics
    are shown, the mean was taken over at least one record and equals the
    sum divided by the count, never the NaN of an empty column. *)
Theorem mean_taken_on_nonempty_frame (disk : string -> Source V)
    (s : FilterSelection) :
  (forall df shown,
     load_data disk "carbon_emissions_china.xlsx" = (Returned df, shown) ->
     df_filtered (rows df) s = Returned [] ->
     exists msgs, dashboard disk s = Stopped msgs)
  /\ (forall shown t,
        dashboard disk s = Rendered shown t ->
        exists df filtered,
          fst (load_data disk "carbon_emissions_china.xlsx") = Returned df
          /\ df_filtered (rows df) s = Returned filtered
          /\ (1 <= List.length filtered)%nat
          /\ shown_avg_daily_emissions t
             = Some (vdivn (total_emissions filtered) (List.length filtered))
          /\ shown_avg_daily_emissions t <> None).
Proof.
  unfold dashboard. split.
  - intros df shown -> Hempty.
    destruct (empty df); [eauto|].
    unfold run_filters. rewrite Hempty. simpl. eauto.
  - intros shown t.
    destruct (load_data disk "carbon_emissions_china.xlsx") as [[df|e] msgs];
      [|discriminate].
    destruct (empty df); [discriminate|].
    unfold run_filters.
    destruct (df_filtered (rows df) s) as [[|r filtered]|e] eqn:Ef;
      try discriminate.
    simpl. intros E; inversion E; subst; clear E. simpl.
    exists df, (r :: filtered). split; [reflexivity|].
    split; [exact Ef|]. simpl. split; [lia|].
    unfold avg_daily_emissions, total_emissions. simpl.
    split; [rewrite length_map; reflexivity | discriminate].
Qed.
End ScriptClaims.

Example good_sheet_loads :
  fst (load_data (fun _ => good_sheet) xlsx)
  = Returned {| columns := ["State"; "Date"; "Sector"; "Emissions"; "Year"; "Month"];
                rows := spec_example |}.
Proof. reflexivity. Qed.


Lemma sheet_without_emissions_missing : missing_columns sheet_without_emissions.
Proof.
  exists "MtCO2 per day". split; [simpl; tauto|].
  simpl. intros [E|[E|[E|[]]]]; discriminate E.
Qed.

Lemma iso_dates_fail : date_parse_fails (map (@cell_Date Z) iso_rows).
Proof.
  split; [reflexivity|].
  exists "2023-01-01". split; [now left | split; reflexivity].
Qed.

(** C6 as stated fails: with the emissions column absent the load
    returns a frame, it raises no error. *)
Lemma missing_column_load_does_not_raise :
  missing_columns sheet_without_emissions
  /\ fst (load_data (fun _ => sheet_without_emissions) xlsx)
     = Returned pd_DataFrame
  /\ forall e, fst (load_data (fun _ => sheet_without_emissions) xlsx)
               <> Raised e.
Proof.
  split; [exact sheet_without_emissions_missing|].
  split; [reflexivity | discriminate].
Qed.

Lemma missing_columns_yield_empty_frame_witness :
  missing_columns sheet_without_emissions
  /\ fst (load_data (fun _ => sheet_without_emissions) xlsx)
     = Returned pd_DataFrame.
Proof.
  split; [exact sheet_without_emissions_missing|].
  destruct (missing_columns_yield_empty_frame
              (fun _ => sheet_without_emissions) xlsx
              sheet_without_emissions_missing) as [E _].
  rewrite E. reflexivity.
Defined.




Lemma load_data_never_raises_witness :
  load_fails sheet_with_iso_dates
  /\ fst (load_data (fun _ => sheet_with_iso_dates) xlsx)
     = fst (load_data (fun _ => Sheet relevant_cols []) xlsx).
Proof.
  assert (Hfail : load_fails sheet_with_iso_dates)
    by (right; exact iso_dates_fail).
  split; [exact Hfail|].
  exact (proj1 (proj2 (proj1 (proj2 (load_data_never_raises
                                (fun _ => sheet_with_iso_dates) xlsx)) Hfail))).
Defined.

Example dashboard_power_2023 :
  dashboard (fun _ => good_sheet) power_2023
  = Rendered []
      {| shown_total_emissions := 12;
         shown_avg_daily_emissions := Some 6;
         shown_n_provinces := 2;
         shown_province_data := [("Shandong", 10); ("Beijing", 2)];
         shown_sector_data := [("Power", 12)] |}.
Proof. reflexivity. Qed.

Lemma mean_taken_on_nonempty_frame_witness :
  (exists msgs, dashboard (fun _ => good_sheet) aviation_only = Stopped msgs)
  /\ (exists df filtered,
        fst (load_data (fun _ => good_sheet) xlsx) = Returned df
        /\ df_filtered (rows df) power_2023 = Returned filtered
        /\ (1 <= List.length filtered)%nat
        /\ Some 6
           = Some (vdivn (total_emissions filtered) (List.length filtered))
        /\ Some 6 <> None).
Proof.
  split.
  - exact (proj1 (mean_taken_on_nonempty_frame (fun _ => good_sheet) aviation_only)
             _ _ eq_refl eq_refl).
  - exact (proj2 (mean_taken_on_nonempty_frame (fun _ => good_sheet) power_2023)
             _ _ eq_refl).
Defined.

(** Clearing the province selection crashes the page. *)
Example dashboard_crashes_without_province :
  dashboard (fun _ => good_sheet) power_2023_any_region
  = Crashed (ValueError "Lengths must match to compare").
Proof. reflexivity. Qed.

(** Equal totals come out in ascending order of region name, whatever
    their order in the file. *)
Example ranking_breaks_ties_by_name :
  top_n_by_region
    [ mkrec "Shanxi" (mkdate 2023 1 1) "Power" 4 2023 "January";
      mkrec "Hebei" (mkdate 2023 1 1) "Power" 4 2023 "January";
      mkrec "Anhui" (mkdate 2023 1 1) "Power" 9 2023 "January";
      mkrec "Beijing" (mkdate 2023 1 1) "Power" 4 2023 "January" ] 3
  = [("Anhui", 9); ("Beijing", 4); ("Hebei", 4)].
Proof. reflexivity. Qed.

(** * Further properties of the script *)

(** ** The sidebar options and defaults (lines 78-104) *)

Lemma unique_nonempty {K} `{Key K} (l : list K) : l <> [] -> pd.unique l <> [].
Proof. destruct l; [congruence | discriminate]. Qed.

Section OptionFacts.
Context {V : Type} `{Arith V}.
Implicit Types (D : Dataset V).

Lemma ranking_names_NoDup D :
  NoDup (map fst (pd.sort_values_desc (group_sum_by_key D (@State V)))).
Proof.
  unfold group_sum_by_key.
  apply (Permutation_NoDup
           (Permutation_map fst (sort_values_desc_perm _))).
  apply (Permutation_NoDup
           (Permutation_sym (groupby_sum_keys (@State V) (@Emissions V) D))).
  apply unique_NoDup.
Qed.

Lemma ranking_length D :
  List.length (pd.sort_values_desc (group_sum_by_key D (@State V)))
  = List.length (all_provinces D).
Proof.
  rewrite <- (Permutation_length (sort_values_desc_perm _)).
  rewrite <- (length_map fst). unfold group_sum_by_key, all_provinces.
  apply Permutation_length, groupby_sum_keys.
Qed.

Lemma top_5_provinces_incl D p :
  In p (top_5_provinces D) -> In p (all_provinces D).
Proof.
  unfold top_5_provinces, top_n_by_region, pd.nlargest.
  intros Hp. rewrite <- firstn_map in Hp. apply firstn_In in Hp.
  apply (Permutation_in _ (Permutation_map fst
           (Permutation_sym (sort_values_desc_perm _)))) in Hp.
  unfold group_sum_by_key in Hp.
  exact (Permutation_in _ (groupby_sum_keys _ _ _) Hp).
Qed.

Lemma top_5_provinces_nonempty D : D <> [] -> top_5_provinces D <> [].
Proof.
  unfold top_5_provinces, top_n_by_region, pd.nlargest.
  intros HD Hnil. apply (f_equal (@List.length _)) in Hnil.
  rewrite length_map, length_firstn, ranking_length in Hnil.
  assert (Hu : all_provinces D <> [])
    by (apply unique_nonempty; destruct D; [congruence | discriminate]).
  destruct (all_provinces D); [congruence | simpl in Hnil; lia].
Qed.

(** X1. The default of the province multiselect is a legal one: at most
    five names, no name twice, every name one of the options
    [all_provinces], and at least one name as soon as the frame has a
    row. *)
Theorem top_5_provinces_is_a_valid_default D :
  (List.length (top_5_provinces D) <= 5)%nat
  /\ NoDup (top_5_provinces D)
  /\ (forall p, In p (top_5_provinces D) -> In p (all_provinces D))
  /\ (D <> [] -> top_5_provinces D <> []).
Proof.
  unfold top_5_provinces, top_n_by_region, pd.nlargest.
  split; [rewrite length_map; apply firstn_le_length|].
  split; [rewrite <- firstn_map; apply NoDup_firstn, ranking_names_NoDup|].
  split; [exact (top_5_provinces_incl D) | exact (top_5_provinces_nonempty (D := D))].
Qed.
End OptionFacts.

Lemma top_5_provinces_is_a_valid_default_witness :
  spec_example <> [] /\ top_5_provinces spec_example <> [].
Proof.
  split; [discriminate|].
  apply (top_5_provinces_is_a_valid_default spec_example). discriminate.
Defined.

(** X2. The options of the year multiselect are the years of the frame,
    each once, in strictly increasing order. *)
Theorem all_years_are_the_years_ascending {V : Type} (D : Dataset V) :
  StronglySorted Z.lt (all_years D)
  /\ NoDup (all_years D)
  /\ (forall y, In y (all_years D) <-> exists r, In r D /\ Year r = y).
Proof.
  assert (Hnd : NoDup (all_years D))
    by (apply (Permutation_NoDup (sorted_perm _)), unique_NoDup).
  split; [|split; [exact Hnd|]].
  - pose proof (strictly_ascending (sorted_sorted (pd.unique (map (@Year V) D))) Hnd)
      as Hs.
    unfold all_years. induction Hs as [|y l Hs IH Hy]; constructor; [exact IH|].
    eapply Forall_impl; [|exact Hy]. intros z Hz.
    unfold kltb in Hz; simpl in Hz. lia.
  - intros y. unfold all_years. rewrite sorted_In, unique_In, in_map_iff.
    split; intros (r & A & B); exists r; tauto.
Qed.

(** ** The query (lines 106-117) *)

Section QueryFacts.
Context {V : Type}.
Implicit Types (D : Dataset V) (s : FilterSelection) (r : EmissionRecord V).

Lemma chosen_or_any_true {K} `{Key K} (chosen : list K) (x : K) :
  In x chosen -> chosen_or_any chosen x = true.
Proof.
  destruct chosen as [|c chosen]; [contradiction|].
  intros Hx. now apply (isin_In x (c :: chosen)).
Qed.

Lemma chosen_or_any_chosen {K} `{Key K} (chosen : list K) (x : K) :
  chosen <> [] -> (chosen_or_any chosen x = true <-> In x chosen).
Proof.
  destruct chosen as [|c chosen]; [congruence|]. intros _.
  apply (isin_In x (c :: chosen)).
Qed.

Lemma comparable_false {K} `{Key K} (chosen col : list K) :
  comparable chosen col = false <-> chosen = [] /\ ~ NoDup col.
Proof.
  destruct chosen as [|c chosen]; simpl.
  - rewrite Nat.eqb_neq, full_iff_NoDup. tauto.
  - split; [discriminate | intros [E _]; discriminate E].
Qed.

(** X4. The query raises exactly when a cleared province selection
    meets a frame with a province on two rows, or a cleared sector
    selection meets a frame with a sector on two rows; the exception is
    then the [ValueError] of the length check. *)
Theorem query_raises_exactly_on_cleared_selection D s e :
  df_filtered D s = Raised e
  <-> e = ValueError "Lengths must match to compare"
      /\ ((selected_provinces s = [] /\ ~ NoDup (map (@State V) D))
          \/ (selected_sectors s = [] /\ ~ NoDup (map (@Sector V) D))).
Proof.
  rewrite df_filtered_eq. unfold query_evaluates.
  rewrite <- !comparable_false.
  destruct (comparable (selected_provinces s) (map (@State V) D));
    destruct (comparable (selected_sectors s) (map (@Sector V) D)); simpl.
  - split; [discriminate | intros [_ [F|F]]; discriminate F].
  - split; [intros F; inversion F; auto | intros [-> _]; reflexivity].
  - split; [intros F; inversion F; auto | intros [-> _]; reflexivity].
  - split; [intros F; inversion F; auto | intros [-> _]; reflexivity].
Qed.

End QueryFacts.

Lemma query_raises_exactly_on_cleared_selection_witness :
  df_filtered spec_example nothing_selected
  = Raised (ValueError "Lengths must match to compare").
Proof.
  apply (query_raises_exactly_on_cleared_selection spec_example nothing_selected).
  split; [reflexivity|]. left. split; [reflexivity|].
  intros Hnd. inversion Hnd as [|x l Hnotin _]; subst.
  apply Hnotin. simpl. tauto.
Defined.


(** ** The tables behind the charts (lines 157, 174-175, 190, 241) *)

Lemma kltb_date_earlier (a b : date) : kltb a b = true <-> earlier a b.
Proof.
  unfold kltb, earlier; simpl. rewrite negb_true_iff.
  destruct (date_leb b a) eqn:E.
  - apply date_leb_iff in E. split; [discriminate | lia].
  - split; [intros _ | reflexivity].
    destruct (date_leb_total a b) as [F|F]; [|congruence].
    apply date_leb_iff in F.
    assert (N : ~ (year b < year a
                   \/ (year b = year a
                       /\ (month b < month a
                           \/ (month b = month a /\ day b <= day a)))))
      by (rewrite <- date_leb_iff; congruence).
    lia.
Qed.

Section ChartFacts.
Context {V : Type} `{Arith V}.
Implicit Types (D : Dataset V).

(** X6. The time series has one point per day that occurs in the
    frame, and the days are in strictly chronological order. *)
Theorem time_series_is_chronological D :
  StronglySorted earlier (map fst (time_series_data D))
  /\ (forall d, In d (map fst (time_series_data D)) <-> In d (map (@Date V) D)).
Proof.
  split.
  - pose proof (groupby_sum_ascending (@Date V) (@Emissions V) D) as Hs.
    unfold time_series_data, group_sum_by_key.
    induction Hs as [|x l Hs IH Hx]; simpl; constructor; [exact IH|].
    rewrite Forall_map. eapply Forall_impl; [|exact Hx].
    intros y Hy. now apply kltb_date_earlier.
  - intros d. unfold time_series_data, group_sum_by_key.
    rewrite <- (unique_In d (map (@Date V) D)).
    split; apply Permutation_in;
      [apply groupby_sum_keys | symmetry; apply groupby_sum_keys].
Qed.


(** X8. With exact additions the industry emissions of the what-if
    block are the Industry slice of the pie: when a row of the frame is in
    the Industry sector they are the value of the pie's "Industry" entry.
    When no row is, they are the empty sum [0], whatever the arithmetic. *)
Theorem industry_emissions_is_the_pie_slice D :
  (ExactArith (V := V) ->
   In "Industry" (map (@Sector V) D) ->
   In ("Industry", industry_emissions D) (sector_data D))
  /\ (~ In "Industry" (map (@Sector V) D) -> industry_emissions D = vzero).
Proof.
  split.
  - intros _ Hin. apply (groupby_sum_In (@Sector V) (@Emissions V) D).
    split; [exact Hin | reflexivity].
  - intros Hnot. unfold industry_emissions.
    replace (filter (fun r => String.eqb (Sector r) "Industry") D) with (@nil (EmissionRecord V));
      [reflexivity|].
    symmetry. induction D as [|r D IH]; simpl; [reflexivity|].
    destruct (String.eqb_spec (Sector r) "Industry") as [E|E].
    + exfalso. apply Hnot. simpl. now left.
    + apply IH. intros Hin. apply Hnot. simpl. now right.
Qed.
End ChartFacts.


Lemma industry_emissions_is_the_pie_slice_witness :
  In ("Industry", industry_emissions spec_example) (sector_data spec_example).
Proof.
  apply (proj1 (industry_emissions_is_the_pie_slice spec_example) Z_exact).
  simpl. tauto.
Defined.

Section ChartSums.
Context {V : Type} `{ExactArith V}.

Lemma sum_perm (l l' : list V) : Permutation l l' -> pd.sum l = pd.sum l'.
Proof.
  induction 1 as [|x l l' Hp IH|x y l|l l' l'' H1 IH1 H2 IH2].
  - reflexivity.
  - now rewrite !sum_cons, IH.
  - rewrite !sum_cons, !vadd_assoc. f_equal. apply vadd_comm.
  - congruence.
Qed.

(** X9. With exact additions the charts agree with the headline total:
    the bars of the province chart, the points of the time series and the
    slices of the pie each add up to [total_emissions]. *)
Theorem charts_add_up_to_the_total (D : Dataset V) :
  sum_values (province_data D) = total_emissions D
  /\ sum_values (time_series_data D) = total_emissions D
  /\ sum_values (sector_data D) = total_emissions D.
Proof.
  unfold sum_values, total_emissions, province_data, time_series_data,
    sector_data, group_sum_by_key.
  split; [|split]; try apply groupby_sum_total.
  rewrite <- (groupby_sum_total (@State V) (@Emissions V) D).
  apply sum_perm, Permutation_map. symmetry. apply sort_values_desc_perm.
Qed.
End ChartSums.

Lemma charts_add_up_to_the_total_witness :
  sum_values (province_data spec_example) = total_emissions spec_example
  /\ sum_values (time_series_data spec_example) = total_emissions spec_example
  /\ sum_values (sector_data spec_example) = total_emissions spec_example.
Proof. exact (@charts_add_up_to_the_total Z Z_arith Z_exact spec_example). Defined.

(** ** The page as a whole (lines 31-69, 106-150, 239-262) *)

Section PageFacts.
Context {V : Type} `{Arith V}.
Implicit Types (D : Dataset V) (s : FilterSelection) (disk : string -> Source V).

Lemma no_industry_row_no_emissions D :
  (forall r, In r D -> Sector r <> "Industry") -> industry_emissions D = vzero.
Proof.
  intros Hno. unfold industry_emissions.
  replace (filter (fun r => String.eqb (Sector r) "Industry") D)
    with (@nil (EmissionRecord V)); [reflexivity|].
  symmetry. induction D as [|r D IH]; simpl; [reflexivity|].
  destruct (String.eqb_spec (Sector r) "Industry") as [E|E].
  - exfalso. exact (Hno r (or_introl eq_refl) E).
  - apply IH. intros r' Hr'. apply Hno. now right.
Qed.

(** X10. When sectors are chosen and Industry is not one of them, the
    filtered frame has no Industry row, its industry emissions are the
    empty sum, and the second tab shows the hint to select Industry
    instead of the savings slider ([0 > 0] being false). *)
Theorem what_if_needs_the_industry_sector D s D' :
  df_filtered D s = Returned D' ->
  selected_sectors s <> [] ->
  ~ In "Industry" (selected_sectors s) ->
  vleb (V := V) vzero vzero = true ->
  industry_emissions D' = vzero
  /\ what_if D'
     = IndustryHint (st_info
         "Select the 'Industry' sector in the sidebar to use the 'What-if' scenario.").
Proof.
  intros Hret Hsel Hnot Hrefl.
  assert (Hz : industry_emissions D' = vzero).
  { apply no_industry_row_no_emissions. intros r Hr E.
    rewrite df_filtered_eq in Hret.
    destruct (query_evaluates D s); [|discriminate].
    inversion Hret; subst D'; clear Hret.
    apply filter_In in Hr. destruct Hr as [_ Hk].
    unfold keeps in Hk. rewrite !andb_true_iff in Hk.
    destruct Hk as [_ Hsec].
    apply (chosen_or_any_chosen (Sector r) Hsel) in Hsec.
    apply Hnot. now rewrite <- E. }
  split; [exact Hz|].
  unfold what_if. rewrite Hz. unfold vltb. now rewrite Hrefl.
Qed.

(** X11. [load_data] never fails silently.  Either it prints nothing and
    returns the six-column frame of the sheet's complete rows, the sheet
    having the four columns and at least one row; or it returns the empty
    frame [pd.DataFrame()] and its first line on the page is an error or
    a warning. *)
Theorem load_data_reports_what_it_drops disk (filepath : string) :
  (snd (load_data disk filepath) = []
   /\ exists header body,
        disk filepath = Sheet header body
        /\ body <> []
        /\ ~ missing_columns (Sheet header body)
        /\ fst (load_data disk filepath)
           = Returned {| columns := ["State"; "Date"; "Sector";
                                     "Emissions"; "Year"; "Month"];
                         rows := keep_complete body |})
  \/ (fst (load_data disk filepath) = Returned pd_DataFrame
      /\ exists text rest,
           snd (load_data disk filepath) = st_error text :: rest
           \/ snd (load_data disk filepath) = st_warning text :: rest).
Proof.
  unfold load_data.
  destruct (disk filepath) as [e|header body] eqn:Esrc; unfold read_excel.
  { right. split; [reflexivity|]. eexists _, _. left. reflexivity. }
  destruct (forallb (fun c => pd.isin c header) relevant_cols) eqn:Ecols.
  2:{ right. split; [reflexivity|]. eexists _, _. left. reflexivity. }
  assert (Hcols : ~ missing_columns (Sheet header body)).
  { intros (c & Hc & Hnot). rewrite forallb_forall in Ecols.
    apply Hnot, isin_In, Ecols, Hc. }
  destruct body as [|row body'] eqn:Ebody.
  { right. split; [reflexivity|]. eexists _, _. right. reflexivity. }
  rewrite <- Ebody in *.
  assert (Hlen : (List.length body =? 0)%nat = false) by now rewrite Ebody.
  rewrite Hlen.
  assert (Hne : body <> []) by (rewrite Ebody; discriminate).
  destruct (is_datetime64_any_dtype (map (@cell_Date V) body)) eqn:Edt.
  - left. split; [reflexivity|]. exists header, body.
    repeat split; try assumption. simpl.
    rewrite (datetime_dtype_parsed _ Edt), map_map, zip_with_map.
    now rewrite dropna_keep_complete.
  - destruct (to_datetime_cases (map (@cell_Date V) body)) as [-> | ->].
    + left. split; [reflexivity|]. exists header, body.
      repeat split; try assumption. simpl.
      rewrite map_map, zip_with_map. now rewrite dropna_keep_complete.
    + right. split; [reflexivity|]. eexists _, _. left. reflexivity.
Qed.




Lemma default_selection_keeps D r :
  In r D -> In (State r) (top_5_provinces D) ->
  keeps (default_selection D) r = true.
Proof.
  intros Hr Hp. unfold keeps, default_selection; simpl.
  rewrite !andb_true_iff. repeat split; apply chosen_or_any_true.
  - apply all_years_In. now apply in_map.
  - exact Hp.
  - apply unique_In. now apply in_map.
Qed.

Lemma top_5_provinces_cases D :
  D = [] \/ exists r, In r D /\ In (State r) (top_5_provinces D)
                     /\ top_5_provinces D <> [] /\ all_sectors D <> [].
Proof.
  destruct D as [|r0 D0] eqn:ED; [now left|]. right. rewrite <- ED.
  assert (HD : D <> []) by (rewrite ED; discriminate).
  pose proof (top_5_provinces_nonempty HD) as Htop.
  destruct (top_5_provinces D) as [|p ps] eqn:Etop; [congruence|].
  assert (Hall : In p (all_provinces D))
    by (apply top_5_provinces_incl; rewrite Etop; now left).
  apply unique_In, in_map_iff in Hall. destruct Hall as (r & E & Hr).
  exists r. subst p. repeat split; try assumption.
  - now left.
  - apply unique_nonempty. rewrite ED. discriminate.
Qed.

(** X15. The bar chart never has more bars than the "No. of Provinces
    Selected" metric says: the provinces of the filtered frame are among
    the selected ones, or among all of them when none is selected. *)
Theorem bars_at_most_provinces_selected disk s shown t :
  dashboard disk s = Rendered shown t ->
  (List.length (shown_province_data t) <= shown_n_provinces t)%nat.
Proof.
  unfold dashboard.
  destruct (load_data disk "carbon_emissions_china.xlsx") as [[df|e] msgs];
    [|discriminate].
  destruct (empty df); [discriminate|].
  unfold run_filters. rewrite df_filtered_eq.
  destruct (query_evaluates (rows df) s); [|discriminate].
  destruct (List.length (filter (keeps s) (rows df)) =? 0)%nat; [discriminate|].
  intros E; inversion E; subst; clear E. simpl.
  unfold province_data. rewrite ranking_length. unfold all_provinces.
  assert (Hincl : forall chosen,
            (forall r, In r (filter (keeps s) (rows df)) -> In (State r) chosen) ->
            (List.length (pd.unique (map (@State V) (filter (keeps s) (rows df))))
             <= List.length chosen)%nat).
  { intros chosen Hc. apply NoDup_incl_length; [apply unique_NoDup|].
    intros p Hp. apply unique_In, in_map_iff in Hp.
    destruct Hp as (r & <- & Hr). now apply Hc. }
  destruct (selected_provinces s) as [|c chosen] eqn:Esel.
  - apply Hincl. intros r Hr. apply filter_In in Hr.
    apply unique_In. apply in_map. tauto.
  - apply (Hincl (c :: chosen)).
    intros r Hr. apply filter_In in Hr. destruct Hr as [_ Hk].
    unfold keeps in Hk. rewrite !andb_true_iff, Esel in Hk.
    destruct Hk as [[_ Hp] _].
    now apply (chosen_or_any_chosen (chosen := c :: chosen) (State r)).
Qed.
End PageFacts.

Lemma what_if_needs_the_industry_sector_witness :
  industry_emissions
    [ mkrec "Shandong" (mkdate 2023 1 1) "Power" 10 2023 "January";
      mkrec "Beijing" (mkdate 2023 1 2) "Power" 2 2023 "January" ] = vzero
  /\ what_if
       [ mkrec "Shandong" (mkdate 2023 1 1) "Power" 10 2023 "January";
         mkrec "Beijing" (mkdate 2023 1 2) "Power" 2 2023 "January" ]
     = IndustryHint (st_info
         "Select the 'Industry' sector in the sidebar to use the 'What-if' scenario.").
Proof.
  refine (what_if_needs_the_industry_sector spec_example power_2023
            eq_refl _ _ eq_refl).
  - discriminate.
  - simpl. intros [E|[]]. discriminate E.
Defined.


Lemma bars_at_most_provinces_selected_witness : (2 <= 2)%nat.
Proof.
  exact (bars_at_most_provinces_selected (fun _ => good_sheet) power_2023
           (shown := [])
           (t := {| shown_total_emissions := 12;
                    shown_avg_daily_emissions := Some 6;
                    shown_n_provinces := 2;
                    shown_province_data := [("Shandong", 10); ("Beijing", 2)];
                    shown_sector_data := [("Power", 12)] |})
           eq_refl).
Defined.

(** ** The page on a sheet read as it is (lines 23-29, 66-121) *)

Section UntypedFacts.
Context {V : Type} `{Arith V}.
Implicit Types (disk : string -> Source (Cell V)) (s : FilterSelection).

Lemma numbers_of_complete_rows (body : list (SheetRow (Cell V))) :
  existsb (fun row => is_text (cell_MtCO2 row)) body = false ->
  List.length (numbers (keep_complete body))
  = List.length (keep_complete body).
Proof.
  induction body as [|row body IH]; simpl; [reflexivity|].
  rewrite orb_false_iff. intros [Hrow Hbody].
  unfold clean_record.
  destruct (cell_State row), (parsed (cell_Date row)), (cell_Sector row),
    (cell_MtCO2 row) as [[v|t]|]; simpl; auto; discriminate Hrow.
Qed.

(** X13. Two exceptions, and no other, reach the top of the script
    before the metrics are shown: the [TypeError] of line 92 when the
    emissions column holds a cell that is neither blank nor a number, and
    otherwise the [ValueError] of the query, which needs the province or
    the sector selection cleared.  On a sheet of numbers, with a province
    and a sector chosen, the page never crashes. *)
Theorem page_crash_causes disk s e :
  page disk s = Crashed e ->
  (exists msg, e = TypeError msg
               /\ object_dtype (disk "carbon_emissions_china.xlsx") = true)
  \/ (e = ValueError "Lengths must match to compare"
      /\ object_dtype (disk "carbon_emissions_china.xlsx") = false
      /\ (selected_provinces s = [] \/ selected_sectors s = [])).
Proof.
  unfold page.
  destruct (load_data_returns disk "carbon_emissions_china.xlsx")
    as [E | (header & body & _ & E)];
    destruct (load_data disk "carbon_emissions_china.xlsx") as [o shown];
    simpl in E; subst o.
  - simpl. discriminate.
  - match goal with |- (if ?c then _ else _) = _ -> _ => destruct c end;
      [discriminate|].
    destruct (object_dtype (disk "carbon_emissions_china.xlsx")) eqn:Hobj.
    + intros F; inversion F. left. eauto.
    + unfold run_filters. rewrite df_filtered_eq.
      destruct (query_evaluates _ s) eqn:Hq.
      * destruct (List.length _ =? 0)%nat; discriminate.
      * intros F; inversion F; subst e. right.
        split; [reflexivity|]. split; [reflexivity|].
        unfold query_evaluates in Hq. apply andb_false_iff in Hq.
        destruct Hq as [Hq|Hq]; apply comparable_false in Hq; tauto.
Qed.

(** X14. The first view of a sheet of numbers always shows the
    metrics: with the widgets at their defaults (every year, the five top
    provinces, every sector) a load that returned a non-empty frame is
    followed neither by a crash nor by the "no data" stop.  With a cell in
    the emissions column that is neither blank nor a number, the same
    load is followed by the [TypeError] of line 92, whatever the
    selection. *)
Theorem default_view_renders disk (df : DataFrame (Cell V))
    (shown : list UIMessage) :
  load_data disk "carbon_emissions_china.xlsx" = (Returned df, shown) ->
  empty df = false ->
  (object_dtype (disk "carbon_emissions_china.xlsx") = false ->
   exists t,
     page disk (default_selection (numbers (rows df))) = Rendered shown t)
  /\ (object_dtype (disk "carbon_emissions_china.xlsx") = true ->
      forall s, exists msg, page disk s = Crashed (TypeError msg)).
Proof.
  intros Hload Hne. unfold page. rewrite Hload, Hne. split.
  - intros Hobj. rewrite Hobj.
    assert (Hrows : numbers (rows df) <> []).
    { destruct (load_data_returns disk "carbon_emissions_china.xlsx")
        as [E | (header & body & Esrc & E)];
        rewrite Hload in E; simpl in E; inversion E; subst df.
      - discriminate Hne.
      - simpl in *. rewrite Esrc in Hobj. simpl in Hobj.
        intros Hnil. apply (f_equal (@List.length _)) in Hnil.
        rewrite (numbers_of_complete_rows _ Hobj) in Hnil.
        destruct (keep_complete body); [discriminate Hne | discriminate Hnil]. }
    unfold run_filters. rewrite df_filtered_eq.
    destruct (top_5_provinces_cases (numbers (rows df)))
      as [Hnil | (r & Hr & Hp & Htop & Hsec)]; [contradiction|].
    assert (Hq : query_evaluates (numbers (rows df))
                   (default_selection (numbers (rows df))) = true).
    { unfold query_evaluates, default_selection; simpl.
      destruct (top_5_provinces (numbers (rows df))); [congruence|].
      destruct (all_sectors (numbers (rows df))); [congruence|]. reflexivity. }
    rewrite Hq.
    assert (Hin : In r (filter (keeps (default_selection (numbers (rows df))))
                               (numbers (rows df))))
      by (apply filter_In; split; [exact Hr | now apply default_selection_keeps]).
    destruct (filter (keeps (default_selection (numbers (rows df))))
                     (numbers (rows df))) as [|x l]; [contradiction|].
    simpl. eauto.
  - intros Hobj s. rewrite Hobj. eauto.
Qed.

Lemma untyped_complete (row : SheetRow V) (d : option date) :
  complete (with_calendar (untyped_row row) d)
  = option_map untyped_record (complete (with_calendar row d)).
Proof.
  unfold complete, with_calendar, untyped_row; simpl.
  destruct (cell_State row), d, (cell_Sector row), (cell_MtCO2 row);
    reflexivity.
Qed.

Lemma untyped_dropna (body : list (SheetRow V)) :
  forall dates,
    dropna (zip_with with_calendar (map untyped_row body) dates)
    = map untyped_record (dropna (zip_with with_calendar body dates)).
Proof.
  induction body as [|row body IH]; intros [|d dates]; simpl; try reflexivity.
  rewrite untyped_complete, IH.
  now destruct (complete (with_calendar row d)).
Qed.

Lemma numbers_untyped (l : Dataset V) : numbers (map untyped_record l) = l.
Proof.
  induction l as [|r l IH]; simpl; [reflexivity|].
  rewrite IH. now destruct r.
Qed.

Lemma untyped_has_no_text (src : Source V) : object_dtype (untyped src) = false.
Proof.
  destruct src as [e|header body]; simpl; [reflexivity|].
  induction body as [|row body IH]; simpl; [reflexivity|].
  rewrite IH. now destruct (cell_MtCO2 row).
Qed.

Lemma untyped_load (disk0 : string -> Source V) (filepath : string) :
  load_data (fun f => untyped (disk0 f)) filepath
  = (match fst (load_data disk0 filepath) with
     | Returned df =>
         Returned {| columns := columns df;
                     rows := map untyped_record (rows df) |}
     | Raised e => Raised e
     end, snd (load_data disk0 filepath)).
Proof.
  unfold load_data.
  destruct (disk0 filepath) as [e|header body]; simpl untyped;
    unfold read_excel; [reflexivity|].
  destruct (forallb (fun c => pd.isin c header) relevant_cols); [|reflexivity].
  rewrite length_map.
  destruct (List.length body =? 0)%nat; [reflexivity|].
  replace (map (@cell_Date (Cell V)) (map untyped_row body))
    with (map (@cell_Date V) body) by (now rewrite map_map).
  destruct (if is_datetime64_any_dtype (map (@cell_Date V) body)
            then Returned (map timestamp (map (@cell_Date V) body))
            else to_datetime (map (@cell_Date V) body)) as [dates|e];
    [|reflexivity].
  simpl. now rewrite untyped_dropna.
Qed.

(** On a sheet of numbers and blanks the page is the [dashboard]. *)
Lemma page_of_typed_sheet (disk0 : string -> Source V) s :
  page (fun f => untyped (disk0 f)) s = dashboard disk0 s.
Proof.
  unfold page, dashboard. rewrite untyped_load, untyped_has_no_text.
  destruct (load_data disk0 "carbon_emissions_china.xlsx") as [[df|e] shown];
    simpl; [|reflexivity].
  unfold empty; simpl. rewrite length_map, numbers_untyped. reflexivity.
Qed.
End UntypedFacts.

Lemma page_crash_causes_witness :
  (exists msg, TypeError "Cannot use method 'nlargest' with dtype object"
               = TypeError msg
               /\ object_dtype (sheet_with_a_note) = true)
  \/ (TypeError "Cannot use method 'nlargest' with dtype object"
      = ValueError "Lengths must match to compare"
      /\ object_dtype (sheet_with_a_note) = false
      /\ (selected_provinces power_2023 = [] \/ selected_sectors power_2023 = [])).
Proof.
  exact (page_crash_causes (fun _ => sheet_with_a_note) power_2023 eq_refl).
Defined.

Lemma default_view_renders_witness :
  exists t,
    page (fun _ => untyped good_sheet) (default_selection spec_example)
    = Rendered [] t.
Proof.
  exact (proj1 (default_view_renders (fun _ => untyped good_sheet)
                  (df := {| columns := ["State"; "Date"; "Sector";
                                        "Emissions"; "Year"; "Month"];
                            rows := map untyped_record spec_example |})
                  eq_refl eq_refl) eq_refl).
Defined.
